(** * Kode agent SDK: skill lifecycle management

    A shallow embedding of the skill management path of the SDK
    ([src/core/skills]): the serializing [OperationQueue], the
    [SandboxFileManager] and the [SkillsManagementManager], together with
    the small part of the JavaScript runtime they rest on (strings, POSIX
    [path], [Date], [fs]).

    Conventions.
    - A JavaScript string is a [string]; a character is one code unit.
    - [async] functions are state transformers over the [World] (the file
      system, the clock and a log of the system calls issued) that either
      return a value or throw an [Error].
    - Objects that are shared and mutated ([OperationTask]) live in a heap
      and are referred to by address. *)

From Stdlib Require Import ZArith NArith List String Ascii Bool Lia Arith.
From stdpp Require Import base option list gmap strings.

Open Scope string_scope.
Open Scope list_scope.
Open Scope N_scope.
Open Scope nat_scope.

(* ================================================================= *)
(** ** JavaScript strings *)

Module JS.

Definition chr (n : nat) : ascii := ascii_of_nat n.
Definition str (c : ascii) : string := String c EmptyString.

(** Characters that have no literal form in this file. *)
Definition LF : ascii := chr 10.
Definition CR : ascii := chr 13.
Definition DQUOTE : ascii := chr 34.
Definition BACKSLASH : ascii := chr 92.

(** [s.startsWith(p)] *)
Fixpoint startsWith (s p : string) {struct p} : bool :=
  match p, s with
  | EmptyString, _ => true
  | String a p', String b s' => Ascii.eqb a b && startsWith s' p'
  | String _ _, EmptyString => false
  end.

(** [s.includes(sub)] *)
Fixpoint includes (s sub : string) : bool :=
  startsWith s sub ||
  match s with
  | EmptyString => false
  | String _ s' => includes s' sub
  end.

(** [s.endsWith(c)] for a one-character suffix. *)
Fixpoint endsWithChar (s : string) (c : ascii) : bool :=
  match s with
  | EmptyString => false
  | String a EmptyString => Ascii.eqb a c
  | String _ s' => endsWithChar s' c
  end.

(** [s.slice(n)] and [s.slice(0, n)] for [n] within the string. *)
Fixpoint drop (n : nat) (s : string) : string :=
  match n, s with
  | O, _ => s
  | S n', String _ s' => drop n' s'
  | S _, EmptyString => EmptyString
  end.

Fixpoint take (n : nat) (s : string) : string :=
  match n, s with
  | O, _ => EmptyString
  | S n', String c s' => String c (take n' s')
  | S _, EmptyString => EmptyString
  end.

(** [s.slice(a, b)] *)
Definition slice (a b : nat) (s : string) : string := take (b - a) (drop a s).

Fixpoint mapChars (f : ascii -> ascii) (s : string) : string :=
  match s with
  | EmptyString => EmptyString
  | String c s' => String (f c) (mapChars f s')
  end.

Fixpoint allChars (f : ascii -> bool) (s : string) : bool :=
  match s with
  | EmptyString => true
  | String c s' => f c && allChars f s'
  end.

(** The longest prefix of characters satisfying [f], as a length. *)
Fixpoint spanLength (f : ascii -> bool) (s : string) : nat :=
  match s with
  | EmptyString => 0
  | String c s' => if f c then S (spanLength f s') else 0
  end.

(** [parts.join(sep)] *)
Fixpoint joinWith (sep : string) (parts : list string) : string :=
  match parts with
  | [] => EmptyString
  | [p] => p
  | p :: rest => p +:+ sep +:+ joinWith sep rest
  end.

(** [s.split(c)]: the pieces between the occurrences of [c], empty pieces
    kept; never the empty list. *)
Fixpoint splitOn (c : ascii) (s : string) : list string :=
  match s with
  | EmptyString => [EmptyString]
  | String a s' =>
      if Ascii.eqb a c then EmptyString :: splitOn c s'
      else match splitOn c s' with
           | h :: t => String a h :: t
           | [] => [str a]
           end
  end.

(** Character classes of regular expressions. *)
Definition isDigit (c : ascii) : bool :=
  let n := nat_of_ascii c in Nat.leb 48 n && Nat.leb n 57.
Definition isLower (c : ascii) : bool :=
  let n := nat_of_ascii c in Nat.leb 97 n && Nat.leb n 122.
Definition isUpper (c : ascii) : bool :=
  let n := nat_of_ascii c in Nat.leb 65 n && Nat.leb n 90.
(** A line terminator: what [.] does not match, and where [^] and [$]
    match under the [m] flag. *)
Definition isLineTerminator (c : ascii) : bool :=
  Ascii.eqb c LF || Ascii.eqb c CR.
(** [\s] restricted to one-byte characters. *)
Definition isSpace (c : ascii) : bool :=
  let n := nat_of_ascii c in
  Nat.eqb n 32 || (Nat.leb 9 n && Nat.leb n 13) || Nat.eqb n 160.

(** Decimal digits: [digitChar n] is the character of the digit [n mod 10],
    [digitVal] reads it back. *)
Definition digitChar (n : N) : ascii := ascii_of_N (48 + n mod 10)%N.
Definition digitVal (c : ascii) : N := (N_of_ascii c - 48)%N.

(** [String(n).padStart(width, "0")] for [n < 10 ^ width]. *)
Fixpoint padDigits (width : nat) (n : N) : string :=
  match width with
  | O => EmptyString
  | S w => padDigits w (n / 10)%N +:+ str (digitChar n)
  end.

(** [Number(s)] for a string of decimal digits. *)
Definition readDigits (s : string) : N :=
  (fix go (acc : N) (s : string) : N :=
     match s with
     | EmptyString => acc
     | String c s' => go (10 * acc + digitVal c)%N s'
     end) 0%N s.

(** Comparison by code units, the model of [a.localeCompare(b)] on the
    strings compared here (time stamps and file names). *)
Definition localeCompare (a b : string) : comparison := String.compare a b.

End JS.

(* ================================================================= *)
(** ** POSIX [path] *)

Module Path.
Import JS.

Definition sep : ascii := "/"%char.

Definition isAbsolute (p : string) : bool := startsWith p "/".

(** One step of Node's [normalizeString]: [res] is the stack of segments
    kept so far, last segment first. *)
Definition pushSegment (allowAboveRoot : bool) (res : list string) (seg : string)
  : list string :=
  if String.eqb seg "" || String.eqb seg "." then res
  else if String.eqb seg ".." then
    match res with
    | top :: below =>
        if String.eqb top ".." then (if allowAboveRoot then seg :: res else res)
        else below
    | [] => if allowAboveRoot then [seg] else []
    end
  else seg :: res.

Definition normalizeSegments (allowAboveRoot : bool) (segs : list string)
  : list string :=
  rev (fold_left (pushSegment allowAboveRoot) segs []).

(** [path.normalize(p)] *)
Definition normalize (p : string) : string :=
  if String.eqb p "" then "."
  else
    let isAbs := isAbsolute p in
    let trailing := endsWithChar p sep in
    let body := joinWith "/" (normalizeSegments (negb isAbs) (splitOn sep p)) in
    if String.eqb body "" then
      (if isAbs then "/" else if trailing then "./" else ".")
    else (if isAbs then "/" else "") +:+ body +:+ (if trailing then "/" else "").

(** [path.join(...parts)] *)
Definition join (parts : list string) : string :=
  let joined :=
    joinWith "/" (List.filter (fun s => negb (String.eqb s "")) parts) in
  if String.eqb joined "" then "." else normalize joined.

(** [path.resolve(p)] in a process whose working directory is the absolute
    path [cwd]. *)
Definition resolve (cwd p : string) : string :=
  let full := if isAbsolute p then p else cwd +:+ "/" +:+ p in
  let body := joinWith "/" (normalizeSegments false (splitOn sep full)) in
  "/" +:+ body.

(** The directory entries an absolute path names, root first. *)
Definition segments (p : string) : list string :=
  normalizeSegments false (splitOn sep p).

(** [path.relative(from, to)] for absolute paths. *)
Fixpoint relativeSegments (from to : list string) : list string :=
  match from, to with
  | f :: from', t :: to' =>
      if String.eqb f t then relativeSegments from' to'
      else List.map (fun _ => "..") from ++ to
  | _, _ => List.map (fun _ => "..") from ++ to
  end.

Definition relative (from to : string) : string :=
  joinWith "/" (relativeSegments (segments from) (segments to)).

End Path.

(* ================================================================= *)
(** ** Errors and results *)

(** A thrown value: an [Error] object with its [name] and [message]. *)
Record Error := mkError { ename : string; message : string }.

(** [new Error(msg)] *)
Definition newError (msg : string) : Error := mkError "Error" msg.

Inductive Result (A : Type) : Type :=
| Return (a : A)
| Throw (e : Error).
Arguments Return {A} a.
Arguments Throw {A} e.

Definition isThrow {A} (r : Result A) : bool :=
  match r with Throw _ => true | Return _ => false end.

(* ================================================================= *)
(** ** JavaScript [Date]

    An instant is kept in its canonical UTC components, the ones
    [toISOString] prints. Years are those of the common era. *)

Module JSDate.
Import JS.

Record Date := mkDate {
  year : N; month : N; day : N;
  hours : N; minutes : N; seconds : N; milliseconds : N }.

Definition isLeapYear (y : N) : bool :=
  N.eqb (y mod 4) 0 && (negb (N.eqb (y mod 100) 0) || N.eqb (y mod 400) 0).

Definition daysInMonth (y m : N) : N :=
  match m with
  | 2 => if isLeapYear y then 29 else 28
  | 4 | 6 | 9 | 11 => 30
  | _ => 31
  end%N.

(** The components denote an instant. *)
Definition valid (d : Date) : bool :=
  N.leb 1 (month d) && N.leb (month d) 12 &&
  N.leb 1 (day d) && N.leb (day d) (daysInMonth (year d) (month d)) &&
  N.ltb (hours d) 24 && N.ltb (minutes d) 60 && N.ltb (seconds d) 60 &&
  N.ltb (milliseconds d) 1000.

Definition withMilliseconds (d : Date) (ms : N) : Date :=
  mkDate (year d) (month d) (day d) (hours d) (minutes d) (seconds d) ms.

(** [d.toISOString()]: [YYYY-MM-DDTHH:mm:ss.sssZ], with the expanded
    six-digit year beyond the year 9999. *)
Definition toISOString (d : Date) : string :=
  (if N.leb (year d) 9999 then padDigits 4 (year d)
   else "+" +:+ padDigits 6 (year d))
  +:+ "-" +:+ padDigits 2 (month d) +:+ "-" +:+ padDigits 2 (day d)
  +:+ "T" +:+ padDigits 2 (hours d) +:+ ":" +:+ padDigits 2 (minutes d)
  +:+ ":" +:+ padDigits 2 (seconds d) +:+ "." +:+ padDigits 3 (milliseconds d)
  +:+ "Z".

(** A fixed-length pattern: a digit [\d] or a literal character. *)
Inductive Item := D | L (c : ascii).

Fixpoint matchShape (shape : list Item) (s : string) : bool :=
  match shape, s with
  | [], EmptyString => true
  | D :: shape', String c s' => isDigit c && matchShape shape' s'
  | L a :: shape', String c s' => Ascii.eqb a c && matchShape shape' s'
  | _, _ => false
  end.

Definition lit (s : string) : list Item :=
  List.map L (list_ascii_of_string s).

(** [\d{4}-\d{2}-\d{2}] *)
Definition dateShape : list Item :=
  [D; D; D; D] ++ lit "-" ++ [D; D] ++ lit "-" ++ [D; D].

(** [YYYY-MM-DDTHH:mm:ssZ] and [YYYY-MM-DDTHH:mm:ss.sssZ] *)
Definition isoShape : list Item :=
  dateShape ++ lit "T" ++ [D; D] ++ lit ":" ++ [D; D] ++ lit ":" ++ [D; D].
Definition isoSecondsShape : list Item := isoShape ++ lit "Z".
Definition isoMillisShape : list Item := isoShape ++ lit "." ++ [D; D; D] ++ lit "Z".

Definition fieldsOf (s : string) (ms : N) : Date :=
  mkDate (readDigits (slice 0 4 s)) (readDigits (slice 5 7 s))
         (readDigits (slice 8 10 s)) (readDigits (slice 11 13 s))
         (readDigits (slice 14 16 s)) (readDigits (slice 17 19 s)) ms.

(** [new Date(s)] for a string in one of the two date-time forms above:
    [None] is the Invalid Date, which components out of their range give. *)
Definition parse (s : string) : option Date :=
  let d :=
    if matchShape isoMillisShape s
    then Some (fieldsOf s (readDigits (slice 20 23 s)))
    else if matchShape isoSecondsShape s then Some (fieldsOf s 0%N)
    else None in
  match d with
  | Some d => if valid d then Some d else None
  | None => None
  end.

(** [new Date(s).toISOString()]: a [RangeError] on the Invalid Date. *)
Definition parseToISOString (s : string) : Result string :=
  match parse s with
  | Some d => Return (toISOString d)
  | None => Throw (mkError "RangeError" "Invalid time value")
  end.

End JSDate.

(* ================================================================= *)
(** ** The file system

    A tree of directories and files with their times. Paths are resolved
    against the working directory; there are no symbolic links. *)

Module Fs.
Import JS JSDate.

Inductive node :=
| File (content : string) (birthtime mtime : Date)
| Dir (entries : list (string * node)) (birthtime mtime : Date).

Fixpoint assoc (k : string) (es : list (string * node)) : option node :=
  match es with
  | [] => None
  | (k', v) :: es' => if String.eqb k k' then Some v else assoc k es'
  end.

(** Replace the entry [k] in place, or append it. *)
Fixpoint setEntry (k : string) (v : node) (es : list (string * node))
  : list (string * node) :=
  match es with
  | [] => [(k, v)]
  | (k', v') :: es' =>
      if String.eqb k k' then (k, v) :: es' else (k', v') :: setEntry k v es'
  end.

Fixpoint removeEntry (k : string) (es : list (string * node))
  : list (string * node) :=
  match es with
  | [] => []
  | (k', v') :: es' =>
      if String.eqb k k' then removeEntry k es'
      else (k', v') :: removeEntry k es'
  end.

Fixpoint lookup (p : list string) (n : node) : option node :=
  match p with
  | [] => Some n
  | s :: p' =>
      match n with
      | Dir es _ _ =>
          match assoc s es with
          | Some c => lookup p' c
          | None => None
          end
      | File _ _ _ => None
      end
  end.

Inductive errno := ENOENT | ENOTDIR | EEXIST | EISDIR | ENOTEMPTY | EINVAL.

Definition errnoName (e : errno) : string :=
  match e with
  | ENOENT => "ENOENT" | ENOTDIR => "ENOTDIR" | EEXIST => "EEXIST"
  | EISDIR => "EISDIR" | ENOTEMPTY => "ENOTEMPTY" | EINVAL => "EINVAL"
  end.

(** Change the entry the path names, in its parent directory: [f] sees the
    entry as it is ([None]: absent) and gives it as it shall be. The parent's
    modification time becomes [now]. *)
Fixpoint alterAt (now : Date) (p : list string)
    (f : option node -> errno + option node) (n : node) : errno + node :=
  match p with
  | [] => inl EINVAL
  | s :: p' =>
      match n with
      | File _ _ _ => inl ENOTDIR
      | Dir es b m =>
          match p' with
          | [] =>
              match f (assoc s es) with
              | inl e => inl e
              | inr (Some v) => inr (Dir (setEntry s v es) b now)
              | inr None => inr (Dir (removeEntry s es) b now)
              end
          | _ :: _ =>
              match assoc s es with
              | None => inl ENOENT
              | Some c =>
                  match alterAt now p' f c with
                  | inl e => inl e
                  | inr c' => inr (Dir (setEntry s c' es) b m)
                  end
              end
          end
      end
  end.

(** [mkdir(p)] *)
Definition mkdir (now : Date) (p : list string) (n : node) : errno + node :=
  alterAt now p
    (fun old => match old with
                | Some _ => inl EEXIST
                | None => inr (Some (Dir [] now now))
                end) n.

(** [mkdir(p, { recursive: true })] *)
Fixpoint mkdirRecursive (now : Date) (p : list string) (n : node) : errno + node :=
  match n with
  | File _ _ _ => match p with [] => inl EEXIST | _ :: _ => inl ENOTDIR end
  | Dir es b m =>
      match p with
      | [] => inr n
      | s :: p' =>
          match assoc s es with
          | Some c =>
              match mkdirRecursive now p' c with
              | inl e => inl e
              | inr c' => inr (Dir (setEntry s c' es) b m)
              end
          | None =>
              match mkdirRecursive now p' (Dir [] now now) with
              | inl e => inl e
              | inr c' => inr (Dir (setEntry s c' es) b now)
              end
          end
      end
  end.

(** [writeFile(p, content)] *)
Definition writeFile (now : Date) (p : list string) (content : string) (n : node)
  : errno + node :=
  alterAt now p
    (fun old => match old with
                | Some (Dir _ _ _) => inl EISDIR
                | Some (File _ b _) => inr (Some (File content b now))
                | None => inr (Some (File content now now))
                end) n.

(** [readFile(p, "utf-8")] *)
Definition readFile (p : list string) (n : node) : errno + string :=
  match lookup p n with
  | Some (File c _ _) => inr c
  | Some (Dir _ _ _) => inl EISDIR
  | None => inl ENOENT
  end.

(** [unlink(p)] *)
Definition unlink (now : Date) (p : list string) (n : node) : errno + node :=
  alterAt now p
    (fun old => match old with
                | Some (File _ _ _) => inr None
                | Some (Dir _ _ _) => inl EISDIR
                | None => inl ENOENT
                end) n.

Fixpoint isPrefix (p q : list string) : bool :=
  match p, q with
  | [], _ => true
  | a :: p', b :: q' => String.eqb a b && isPrefix p' q'
  | _ :: _, [] => false
  end.

(** What [rename(2)] refuses when the new path exists. *)
Definition renameTarget (src : node) (dst : option node) : option errno :=
  match src, dst with
  | _, None => None
  | File _ _ _, Some (File _ _ _) => None
  | File _ _ _, Some (Dir _ _ _) => Some EISDIR
  | Dir _ _ _, Some (File _ _ _) => Some ENOTDIR
  | Dir _ _ _, Some (Dir [] _ _) => None
  | Dir _ _ _, Some (Dir (_ :: _) _ _) => Some ENOTEMPTY
  end.

(** [rename(a, b)] *)
Definition rename (now : Date) (a b : list string) (n : node) : errno + node :=
  match lookup a n with
  | None => inl ENOENT
  | Some src =>
      if isPrefix a b && isPrefix b a then inr n
      else if isPrefix a b then inl EINVAL
      else
        match renameTarget src (lookup b n) with
        | Some e => inl e
        | None =>
            match alterAt now a (fun _ => inr None) n with
            | inl e => inl e
            | inr n1 => alterAt now b (fun _ => inr (Some src)) n1
            end
        end
  end.

Record Stats := mkStats {
  st_isDirectory : bool; st_size : nat; st_birthtime : Date; st_mtime : Date }.

(** The size [stat] reports for a directory. *)
Definition dirSize : nat := 4096.

Definition statOf (n : node) : Stats :=
  match n with
  | File c b m => mkStats false (String.length c) b m
  | Dir _ b m => mkStats true dirSize b m
  end.

Record Dirent := mkDirent { d_name : string; d_isDirectory : bool }.

Definition direntOf (e : string * node) : Dirent :=
  mkDirent (fst e) (st_isDirectory (statOf (snd e))).

End Fs.

(* ================================================================= *)
(** ** The world and its computations *)

(** The system calls this subsystem issues, as the world logs them. *)
Inductive Syscall :=
| SysAccess (p : string)
| SysStat (p : string)
| SysReaddir (p : string)
| SysMkdir (p : string) (recursive : bool)
| SysWriteFile (p : string)
| SysReadFile (p : string)
| SysRename (a b : string)
| SysGlob (cwd pattern : string)
| SysExec (cwd cmd : string).

Record World := mkWorld {
  root : Fs.node;              (** the directory [/] *)
  clock : JSDate.Date;         (** what [new Date()] reads *)
  cwd : string;                (** [process.cwd()] *)
  platform : string;           (** [os.platform()] *)
  trace : list Syscall }.

Definition withRoot (w : World) (r : Fs.node) : World :=
  mkWorld r (clock w) (cwd w) (platform w) (trace w).
Definition withClock (w : World) (d : JSDate.Date) : World :=
  mkWorld (root w) d (cwd w) (platform w) (trace w).
Definition logged (w : World) (c : Syscall) : World :=
  mkWorld (root w) (clock w) (cwd w) (platform w) (trace w ++ [c]).

(** An [async] function returning [A]: it runs from a world to a result and
    the world it leaves. *)
Definition M (A : Type) : Type := World -> Result A * World.

Definition ret {A} (a : A) : M A := fun w => (Return a, w).
Definition throw {A} (e : Error) : M A := fun w => (Throw e, w).
Definition bind {A B} (c : M A) (k : A -> M B) : M B :=
  fun w => match c w with
           | (Return a, w') => k a w'
           | (Throw e, w') => (Throw e, w')
           end.
(** [try { c } catch (e) { h(e) }] *)
Definition tryCatch {A} (c : M A) (h : Error -> M A) : M A :=
  fun w => match c w with
           | (Return a, w') => (Return a, w')
           | (Throw e, w') => h e w'
           end.
Definition getWorld : M World := fun w => (Return w, w).

#[global] Instance M_ret : MRet M := @ret.
#[global] Instance M_bind : MBind M := fun A B k c => bind c k.

(** [for (const x of xs) { ys.push(await f(x)) }]: the calls in the order of
    the list, the results collected. *)
Fixpoint mapAwait {A B} (f : A -> M B) (xs : list A) : M (list B) :=
  match xs with
  | [] => ret []
  | x :: xs' =>
      bind (f x) (fun y => bind (mapAwait f xs') (fun ys => ret (y :: ys)))
  end.

(* ================================================================= *)
(** ** [fs/promises] *)

Module FsPromises.
Import JS.

Definition fsError (e : Fs.errno) (call path : string) : Error :=
  newError (Fs.errnoName e +:+ ": " +:+ call +:+ " '" +:+ path +:+ "'").

(** The entries a path names, from the root. *)
Definition locate (w : World) (p : string) : list string :=
  Path.segments (Path.resolve (cwd w) p).

(** A call that changes the tree. *)
Definition update (call : Syscall) (name path : string)
    (run : World -> Fs.errno + Fs.node) : M unit :=
  fun w =>
    let w1 := logged w call in
    match run w with
    | inl e => (Throw (fsError e name path), w1)
    | inr r => (Return tt, withRoot w1 r)
    end.

(** [fs.access(p)] *)
Definition access (p : string) : M unit :=
  fun w =>
    let w1 := logged w (SysAccess p) in
    match Fs.lookup (locate w p) (root w) with
    | Some _ => (Return tt, w1)
    | None => (Throw (fsError Fs.ENOENT "access" p), w1)
    end.

(** [fs.stat(p)] *)
Definition stat (p : string) : M Fs.Stats :=
  fun w =>
    let w1 := logged w (SysStat p) in
    match Fs.lookup (locate w p) (root w) with
    | Some n => (Return (Fs.statOf n), w1)
    | None => (Throw (fsError Fs.ENOENT "stat" p), w1)
    end.

(** [fs.readdir(p, { withFileTypes: true })] *)
Definition readdir (p : string) : M (list Fs.Dirent) :=
  fun w =>
    let w1 := logged w (SysReaddir p) in
    match Fs.lookup (locate w p) (root w) with
    | Some (Fs.Dir es _ _) => (Return (List.map Fs.direntOf es), w1)
    | Some (Fs.File _ _ _) => (Throw (fsError Fs.ENOTDIR "scandir" p), w1)
    | None => (Throw (fsError Fs.ENOENT "scandir" p), w1)
    end.

(** [fs.mkdir(p)] and [fs.mkdir(p, { recursive: true })] *)
Definition mkdir (p : string) (recursive : bool) : M unit :=
  update (SysMkdir p recursive) "mkdir" p
    (fun w => if recursive
              then Fs.mkdirRecursive (clock w) (locate w p) (root w)
              else Fs.mkdir (clock w) (locate w p) (root w)).

(** [fs.writeFile(p, content, "utf-8")] *)
Definition writeFile (p content : string) : M unit :=
  update (SysWriteFile p) "open" p
    (fun w => Fs.writeFile (clock w) (locate w p) content (root w)).

(** [fs.readFile(p, "utf-8")] *)
Definition readFile (p : string) : M string :=
  fun w =>
    let w1 := logged w (SysReadFile p) in
    match Fs.readFile (locate w p) (root w) with
    | inr c => (Return c, w1)
    | inl e => (Throw (fsError e "open" p), w1)
    end.

(** [fs.rename(a, b)] *)
Definition rename (a b : string) : M unit :=
  update (SysRename a b) "rename" a
    (fun w => Fs.rename (clock w) (locate w a) (locate w b) (root w)).

End FsPromises.

(* ================================================================= *)
(** ** [operation-queue.ts] *)

Module OperationQueue.
Import JSDate.

Inductive OperationType := CREATE | RENAME | EDIT | DELETE | RESTORE.

Definition typeString (t : OperationType) : string :=
  match t with
  | CREATE => "create" | RENAME => "rename" | EDIT => "edit"
  | DELETE => "delete" | RESTORE => "restore"
  end.

Inductive OperationStatus := PENDING | PROCESSING | COMPLETED | FAILED.

(** The task object. [execute] is the closure the caller bound. *)
Record OperationTask := mkTask {
  id : string;
  type : OperationType;
  targetSkill : string;
  status : OperationStatus;
  execute : M unit;
  createdAt : Date;
  startedAt : option Date;
  completedAt : option Date;
  error : option Error }.

(** Field assignments on a task object. *)
Definition started (now : Date) (t : OperationTask) : OperationTask :=
  mkTask (id t) (type t) (targetSkill t) PROCESSING (execute t) (createdAt t)
         (Some now) (completedAt t) (error t).
Definition completed (now : Date) (t : OperationTask) : OperationTask :=
  mkTask (id t) (type t) (targetSkill t) COMPLETED (execute t) (createdAt t)
         (startedAt t) (Some now) (error t).
Definition failed (now : Date) (e : Error) (t : OperationTask) : OperationTask :=
  mkTask (id t) (type t) (targetSkill t) FAILED (execute t) (createdAt t)
         (startedAt t) (Some now) (Some e).

(** The address of a task object. *)
Definition ref := nat.

(** The program state around one [OperationQueue]: the world, the task
    objects, the queue's two fields, and the activations of [processQueue]
    that are suspended at [await task.execute()], each with the task whose
    body is running. [enqueued] and [startedLog] record, for the statements
    below, the order in which tasks were passed to [enqueue] and the order
    in which their bodies were started. *)
Record Machine := mkMachine {
  world : World;
  heap : gmap ref OperationTask;
  queue : list ref;
  processing : bool;
  loops : list ref;
  enqueued : list ref;
  startedLog : list ref }.

(** [maxConcurrent], which the class declares and never reads. *)
Definition maxConcurrent : nat := 1.

Definition initial (w : World) (h : gmap ref OperationTask) : Machine :=
  mkMachine w h [] false [] [] [].

(** The task bodies in execution. *)
Definition running (m : Machine) : list ref := loops m.

(** [dequeue()]: [this.queue.shift() || null] *)
Definition dequeue (m : Machine) : option ref * Machine :=
  match queue m with
  | [] => (None, m)
  | r :: q =>
      (Some r, mkMachine (world m) (heap m) q (processing m) (loops m)
                         (enqueued m) (startedLog m))
  end.

(** The [while] loop of [processQueue], from its test to the next
    [await task.execute()], or to the end of the function. *)
Definition drain (m : Machine) : Machine :=
  match queue m with
  | [] =>
      mkMachine (world m) (heap m) [] false (loops m) (enqueued m) (startedLog m)
  | _ :: _ =>
      match dequeue m with
      | (None, m1) =>
          mkMachine (world m1) (heap m1) (queue m1) false (loops m1)
                    (enqueued m1) (startedLog m1)
      | (Some r, m1) =>
          mkMachine (world m1)
                    (alter (started (clock (world m1))) r (heap m1))
                    (queue m1) (processing m1) (loops m1 ++ [r])
                    (enqueued m1) (startedLog m1 ++ [r])
      end
  end.

(** [processQueue()], up to its first suspension. *)
Definition processQueue (m : Machine) : Machine :=
  drain (mkMachine (world m) (heap m) (queue m) true (loops m)
                   (enqueued m) (startedLog m)).

(** [enqueue(task)] *)
Definition enqueue (r : ref) (m : Machine) : Machine :=
  let m1 := mkMachine (world m) (heap m) (queue m ++ [r]) (processing m)
                      (loops m) (enqueued m ++ [r]) (startedLog m) in
  if negb (processing m1) then processQueue m1 else m1.

(** The body awaited by the [i]-th activation settles: the rest of the
    iteration ([try] block or [catch] block), then the loop again. The body
    runs on the world as one step. *)
Definition settle (i : nat) (m : Machine) : Machine :=
  match loops m !! i with
  | None => m
  | Some r =>
      match heap m !! r with
      | None => m
      | Some t =>
          let '(res, w) := execute t (world m) in
          let update :=
            match res with
            | Return _ => completed (clock w)
            | Throw e => failed (clock w) e
            end in
          drain (mkMachine w (alter update r (heap m)) (queue m) (processing m)
                           (delete i (loops m)) (enqueued m) (startedLog m))
      end
  end.

(** [clear()] *)
Definition clear (m : Machine) : Machine :=
  mkMachine (world m) (heap m) [] (processing m) (loops m) (enqueued m)
            (startedLog m).

(** [getQueueStatus()] *)
Definition getQueueStatus (m : Machine) : nat * bool * list ref :=
  (length (queue m), processing m, queue m).

(** What can happen next: a caller enqueues a task object, the body an
    activation awaits settles, a caller clears the queue, a new task object
    is created, or time passes. *)
Inductive Event :=
| Enqueue (r : ref)
| Settle (i : nat)
| Clear
| Alloc (r : ref) (t : OperationTask)
| Tick (now : Date).

Definition step (m : Machine) (e : Event) : Machine :=
  match e with
  | Enqueue r => enqueue r m
  | Settle i => settle i m
  | Clear => clear m
  | Alloc r t =>
      mkMachine (world m) (<[r := t]> (heap m)) (queue m) (processing m)
                (loops m) (enqueued m) (startedLog m)
  | Tick now =>
      mkMachine (withClock (world m) now) (heap m) (queue m) (processing m)
                (loops m) (enqueued m) (startedLog m)
  end.

Definition run (m : Machine) (evs : list Event) : Machine :=
  fold_left step evs m.

Definition isClear (e : Event) : bool :=
  match e with Clear => true | _ => false end.

End OperationQueue.

(* ================================================================= *)
(** ** The sandbox collaborator ([infra/sandbox], [infra/sandbox-factory]) *)

Module Sandbox.
Import JS.

Record ExecResult := mkExecResult { code : Z; stdout : string; stderr : string }.

(** The interface [SandboxFileManager] programs against. *)
Record Sandbox := mkSandbox {
  fs_read : string -> M string;
  fs_write : string -> string -> M unit;
  fs_glob : string -> M (list string);
  exec : string -> N -> M ExecResult }.

Record SandboxConfig := mkConfig {
  kind : string;
  workDir : string;
  baseDir : string;
  enforceBoundary : bool;
  allowPaths : list string }.

Record SandboxFactory := mkFactory { create : SandboxConfig -> Sandbox }.

(** Modelled from the spec: the local sandbox, whose source is not part of
    the files at hand. Its [fs] operations normalize the path they are given
    and refuse it when it begins with a parent-directory segment or is
    absolute, before any file system call; the error names the path as
    outside the sandbox. [write] creates the intermediate directories.
    [glob] lists what lies under the pattern's directory, entries whose name
    begins with a dot apart. [exec] hands the command to a shell in the
    working directory: it sees a command, not a path, and checks none. Of
    shell commands, the model runs the two the file manager issues
    ([rm -f] and [del /F /Q] of one quoted path). *)
Definition escapes (p : string) : bool :=
  let n := Path.normalize p in
  startsWith n ".." || Path.isAbsolute n.

Definition boundaryError (p : string) : Error :=
  newError ("Path outside sandbox: " +:+ p).

Definition guarded {A} (cfg : SandboxConfig) (p : string) (c : M A) : M A :=
  if enforceBoundary cfg && escapes p then throw (boundaryError p) else c.

Definition dirname (p : string) : string :=
  "/" +:+ joinWith "/" (removelast (Path.segments p)).

Definition hidden (name : string) : bool := startsWith name ".".

Fixpoint descendants (prefix : string) (n : Fs.node) : list string :=
  match n with
  | Fs.File _ _ _ => []
  | Fs.Dir es _ _ =>
      (fix each (es : list (string * Fs.node)) : list string :=
         match es with
         | [] => []
         | (name, c) :: es' =>
             if hidden name then each es'
             else (prefix +:+ "/" +:+ name)
                    :: descendants (prefix +:+ "/" +:+ name) c ++ each es'
         end) es
  end.

(** The directory of a pattern [dir/**/*]. *)
Definition globDirectory (pattern : string) : string :=
  take (String.length pattern - 5) pattern.

Definition quotedArgument (prefixLength : nat) (cmd : string) : string :=
  slice prefixLength (String.length cmd - 1) cmd.

Definition deletedPath (cmd : string) : option string :=
  if startsWith cmd ("rm -f " +:+ str DQUOTE) && endsWithChar cmd DQUOTE
  then Some (quotedArgument 7 cmd)
  else if startsWith cmd ("del /F /Q " +:+ str DQUOTE) && endsWithChar cmd DQUOTE
  then Some (quotedArgument 11 cmd)
  else None.

(** Modelled from the spec: the four operations of the local sandbox. *)
Definition localSandbox (cfg : SandboxConfig) : Sandbox :=
  mkSandbox
    (fun p => guarded cfg p (FsPromises.readFile (Path.join [workDir cfg; p])))
    (fun p content =>
       guarded cfg p
         (_ ← FsPromises.mkdir (dirname (Path.join [workDir cfg; p])) true;
          FsPromises.writeFile (Path.join [workDir cfg; p]) content))
    (fun pattern =>
       guarded cfg pattern
         (fun w =>
            let dir := Path.join [workDir cfg; globDirectory pattern] in
            (Return match Fs.lookup (FsPromises.locate w dir) (root w) with
                    | Some n => descendants dir n
                    | None => []
                    end,
             logged w (SysGlob (workDir cfg) pattern))))
    (fun cmd _ w =>
       let w1 := logged w (SysExec (workDir cfg) cmd) in
       let ok := mkExecResult 0 "" "" in
       match deletedPath cmd with
       | Some p =>
           match Fs.unlink (clock w)
                   (FsPromises.locate w (Path.join [workDir cfg; p])) (root w) with
           | inr r => (Return ok, withRoot w1 r)
           | inl _ => (Return ok, w1)
           end
       | None => (Return ok, w1)
       end).

Definition LocalSandboxFactory : SandboxFactory := mkFactory localSandbox.

End Sandbox.

(* ================================================================= *)
(** ** [sandbox-file-manager.ts] *)

Module SandboxFileManager.
Import JS JSDate Sandbox.

Inductive FileType := file | dir.

Inductive SkillFileTree :=
| TreeNode (name : string) (type : FileType) (path : string)
           (size : nat) (modifiedTime : string)
           (children : option (list SkillFileTree)).

Definition treeName (t : SkillFileTree) : string :=
  match t with TreeNode n _ _ _ _ _ => n end.
Definition treeType (t : SkillFileTree) : FileType :=
  match t with TreeNode _ ty _ _ _ _ => ty end.

(** The class holds the sandbox factory and nothing else. *)
Record SandboxFileManager := mkFileManager { sandboxFactory : SandboxFactory }.

(** [createSkillSandbox(skillBaseDir)] *)
Definition createSkillSandbox (fm : SandboxFileManager) (skillBaseDir : string)
  : Sandbox :=
  create (sandboxFactory fm)
         (mkConfig "local" skillBaseDir skillBaseDir true []).

(** [readFile(skillBaseDir, relativePath)] *)
Definition readFile (fm : SandboxFileManager) (skillBaseDir relativePath : string)
  : M string :=
  let sandbox := createSkillSandbox fm skillBaseDir in
  content ← fs_read sandbox relativePath;
  mret content.

(** [writeFile(skillBaseDir, relativePath, content)] *)
Definition writeFile (fm : SandboxFileManager)
    (skillBaseDir relativePath content : string) : M unit :=
  let sandbox := createSkillSandbox fm skillBaseDir in
  fs_write sandbox relativePath content.

(** [getDeleteCommand(filePath)] *)
Definition getDeleteCommand (filePath : string) : M string :=
  fun w =>
    (Return (if String.eqb (platform w) "win32"
             then "del /F /Q " +:+ str DQUOTE +:+ filePath +:+ str DQUOTE
             else "rm -f " +:+ str DQUOTE +:+ filePath +:+ str DQUOTE), w).

(** [deleteFile(skillBaseDir, relativePath)] *)
Definition deleteFile (fm : SandboxFileManager) (skillBaseDir relativePath : string)
  : M unit :=
  let sandbox := createSkillSandbox fm skillBaseDir in
  cmd ← getDeleteCommand relativePath;
  _ ← exec sandbox cmd 5000%N;
  mret tt.

(** The comparison [buildNode] sorts children by: directories first, then by
    name. *)
Definition compareNodes (a b : SkillFileTree) : comparison :=
  match treeType a, treeType b with
  | dir, file => Lt
  | file, dir => Gt
  | _, _ => localeCompare (treeName a) (treeName b)
  end.

(** [xs.sort(cmp)]; the sort is stable. *)
Fixpoint insertSorted {A} (cmp : A -> A -> comparison) (x : A) (xs : list A)
  : list A :=
  match xs with
  | [] => [x]
  | y :: ys =>
      match cmp x y with
      | Lt => x :: y :: ys
      | _ => y :: insertSorted cmp x ys
      end
  end.

Definition sortBy {A} (cmp : A -> A -> comparison) (xs : list A) : list A :=
  fold_left (fun acc x => insertSorted cmp x acc) xs [].

(** [buildNode(dirPath, name)] on the node [n] that [dirPath/name] names,
    with the [statSync] and [readdirSync] calls it makes. *)
Fixpoint buildNode (basePath dirPath name : string) (n : Fs.node)
  : SkillFileTree * list Syscall :=
  let fullPath := Path.join [dirPath; name] in
  let relative := Path.relative basePath fullPath in
  let st := Fs.statOf n in
  match n with
  | Fs.File _ _ _ =>
      (TreeNode name file relative (Fs.st_size st)
                (toISOString (Fs.st_mtime st)) None,
       [SysStat fullPath])
  | Fs.Dir es _ _ =>
      let built :=
        (fix each (es : list (string * Fs.node))
           : list SkillFileTree * list Syscall :=
           match es with
           | [] => ([], [])
           | (entry, c) :: es' =>
               if startsWith entry "." then each es'
               else
                 let '(t, calls) := buildNode basePath fullPath entry c in
                 let '(ts, calls') := each es' in
                 (t :: ts, calls ++ calls')
           end) es in
      (TreeNode name dir relative (Fs.st_size st)
                (toISOString (Fs.st_mtime st))
                (Some (sortBy compareNodes (fst built))),
       [SysStat fullPath; SysReaddir fullPath] ++ snd built)
  end.

(** [buildFileTree(files, basePath, relativePath)]; [files] is not read. *)
Definition buildFileTree (files : list string) (basePath relativePath : string)
  : M SkillFileTree :=
  fun w =>
    let fullPath := Path.join [basePath; relativePath] in
    match Fs.lookup (FsPromises.locate w fullPath) (root w) with
    | None =>
        (Throw (FsPromises.fsError Fs.ENOENT "stat" fullPath),
         logged w (SysStat fullPath))
    | Some n =>
        let '(t, calls) := buildNode basePath basePath relativePath n in
        (Return t,
         mkWorld (root w) (clock w) (cwd w) (platform w) (trace w ++ calls))
    end.

(** [s.replace(/\\/g, "/")] *)
Definition slashes (s : string) : string :=
  mapChars (fun c => if Ascii.eqb c BACKSLASH then "/"%char else c) s.

(** [listFiles(skillBaseDir, relativePath)] *)
Definition listFiles (fm : SandboxFileManager) (skillBaseDir relativePath : string)
  : M SkillFileTree :=
  let sandbox := createSkillSandbox fm skillBaseDir in
  let pattern := slashes (Path.join [relativePath; "**/*"]) in
  files ← fs_glob sandbox pattern;
  buildFileTree files skillBaseDir relativePath.

(** [createDir(skillBaseDir, relativePath)] *)
Definition createDir (fm : SandboxFileManager) (skillBaseDir relativePath : string)
  : M unit :=
  let sandbox := createSkillSandbox fm skillBaseDir in
  let tempFile := Path.join [relativePath; ".gitkeep"] in
  fs_write sandbox tempFile "".

End SandboxFileManager.

(* ================================================================= *)
(** ** [management-manager.ts] *)

Module SkillsManagementManager.
Import JS JSDate OperationQueue.

(** *** The types of [types.ts], as this module uses them *)

Record SkillMetadata := mkMetadata {
  sm_name : string; sm_description : string;
  sm_path : string;       (** the manifest, [SKILL.md] *)
  sm_baseDir : string }.

Record SkillContent := mkContent {
  metadata : SkillMetadata; content : string;
  references : list string; scripts : list string; assets : list string }.

Record SkillInfo := mkInfo {
  si_skill : SkillMetadata;
  si_createdAt : option string; si_updatedAt : option string }.

Record SkillDetail := mkDetail {
  sd_name : string; sd_description : string; sd_path : string;
  sd_baseDir : string;
  sd_createdAt : option string; sd_updatedAt : option string;
  sd_files : SandboxFileManager.SkillFileTree;
  sd_references : list string; sd_scripts : list string;
  sd_assets : list string }.

Record ArchivedSkillInfo := mkArchived {
  originalName : string; archivedName : string;
  archivedPath : string; archivedAt : string }.

Record CreateSkillOptions := mkOptions {
  opt_name : string; opt_description : option string }.

(** The metadata reader ([SkillsManager], whose source is not part of the
    files at hand), by its two methods this module calls. Both read the
    disk as it is at the call. *)
Record SkillsManager := mkSkillsManager {
  loadSkillContent : World -> string -> option SkillContent;
  getSkillsMetadata : World -> list SkillMetadata }.

(** The fields of the class; its [operationQueue] is the machine of
    [OperationQueue]. *)
Record Manager := mkManager {
  skillsManager : SkillsManager;
  sandboxFileManager : SandboxFileManager.SandboxFileManager;
  skillsDir : string;
  archivedDir : string }.

(** The constructor, in a process whose working directory is [cwd]. *)
Definition new (cwd : string) (reader : string -> SkillsManager)
    (skillsDir : string) (sandboxFactory : option Sandbox.SandboxFactory)
    (archivedDir : option string) : Manager :=
  let skillsDir := Path.resolve cwd skillsDir in
  mkManager
    (reader skillsDir)
    (SandboxFileManager.mkFileManager
       (match sandboxFactory with
        | Some f => f
        | None => Sandbox.LocalSandboxFactory
        end))
    skillsDir
    (match archivedDir with
     | Some a =>
         if String.eqb a "" then Path.join [skillsDir; ".archived"]
         else Path.resolve cwd a
     | None => Path.join [skillsDir; ".archived"]
     end).

(** *** Helpers *)

(** The test the module makes of a [baseDir] wherever it asks whether a
    skill is archived:
    [baseDir.includes('/.archived/') || baseDir.includes('\\.archived\\')]. *)
Definition inArchivedDirectory (baseDir : string) : bool :=
  includes baseDir "/.archived/" || includes baseDir "\.archived\".

(** [fileExists(filePath)] *)
Definition fileExists (filePath : string) : M bool :=
  tryCatch (_ ← FsPromises.access filePath; mret true) (fun _ => mret false).

(** [safeGetFileStat(filePath)] *)
Definition safeGetFileStat (filePath : string) : M (option Fs.Stats) :=
  tryCatch (s ← FsPromises.stat filePath; mret (Some s)) (fun _ => mret None).

(** [/^[a-zA-Z0-9_-]+$/.test(name)] *)
Definition isNameChar (c : ascii) : bool :=
  isLower c || isUpper c || isDigit c || Ascii.eqb c "_" || Ascii.eqb c "-".

Definition testNamePattern (name : string) : bool :=
  negb (String.eqb name "") && allChars isNameChar name.

(** [isValidSkillName(name)] *)
Definition isValidSkillName (name : string) : bool :=
  testNamePattern name && Nat.ltb 0 (String.length name)
  && Nat.leb (String.length name) 50.

(** [generateSkillMd(options)] *)
Definition generateSkillMd (options : CreateSkillOptions) : string :=
  let name := opt_name options in
  let description :=
    match opt_description options with Some d => d | None => "" end in
  joinWith (str LF)
    [ "---";
      "name: " +:+ name;
      "description: " +:+ description;
      "---";
      "";
      "# " +:+ name;
      "";
      "This is a custom skill created for " +:+ name +:+ ".";
      "";
      "## Usage";
      "";
      "Describe how to use this skill here.";
      "";
      "## Configuration";
      "";
      "Add any configuration details here.";
      "" ].

(** *** Archive names *)

(** [\d{4}-\d{2}-\d{2}T\d{2}-\d{2}-\d{2}(?:-\d{3})?Z], the whole string. *)
Definition stampShape : list Item :=
  dateShape ++ lit "T" ++ [D; D] ++ lit "-" ++ [D; D] ++ lit "-" ++ [D; D].
Definition stampSecondsShape : list Item := stampShape ++ lit "Z".
Definition stampMillisShape : list Item :=
  stampShape ++ lit "-" ++ [D; D; D] ++ lit "Z".

Definition isStamp (s : string) : bool :=
  matchShape stampMillisShape s || matchShape stampSecondsShape s.

(** [name.match(/^(.+?)_(\d{4}-\d{2}-\d{2}T\d{2}-\d{2}-\d{2}(?:-\d{3})?Z)$/)]:
    the two groups. The first group is lazy: the shortest prefix, of one
    character or more and free of line terminators, after which [_] and a
    stamp end the string. *)
Fixpoint matchArchivedName (s : string) : option (string * string) :=
  match s with
  | EmptyString => None
  | String c rest =>
      if isLineTerminator c then None
      else
        let longer :=
          match matchArchivedName rest with
          | Some (name, stamp) => Some (String c name, stamp)
          | None => None
          end in
        match rest with
        | String u stamp =>
            if Ascii.eqb u "_" && isStamp stamp then Some (str c, stamp)
            else longer
        | EmptyString => longer
        end
  end.

(** The groups of
    [/^(\d{4}-\d{2}-\d{2})T(\d{2})-(\d{2})-(\d{2})(?:-(\d{3}))?Z$/]. *)
Record StampGroups := mkGroups {
  g_date : string; g_hour : string; g_min : string; g_sec : string;
  g_ms : option string }.

Definition matchStamp (s : string) : option StampGroups :=
  if matchShape stampMillisShape s then
    Some (mkGroups (slice 0 10 s) (slice 11 13 s) (slice 14 16 s)
                   (slice 17 19 s) (Some (slice 20 23 s)))
  else if matchShape stampSecondsShape s then
    Some (mkGroups (slice 0 10 s) (slice 11 13 s) (slice 14 16 s)
                   (slice 17 19 s) None)
  else None.

(** The ISO string [listArchivedSkills] rebuilds from the groups. *)
Definition isoTimestamp (g : StampGroups) : string :=
  match g_ms g with
  | Some ms =>
      if String.eqb ms "" then
        g_date g +:+ "T" +:+ g_hour g +:+ ":" +:+ g_min g +:+ ":" +:+ g_sec g +:+ "Z"
      else
        g_date g +:+ "T" +:+ g_hour g +:+ ":" +:+ g_min g +:+ ":" +:+ g_sec g
          +:+ "." +:+ ms +:+ "Z"
  | None =>
      g_date g +:+ "T" +:+ g_hour g +:+ ":" +:+ g_min g +:+ ":" +:+ g_sec g +:+ "Z"
  end.

(** What [listArchivedSkills] reads off a directory name: the original name
    and [archivedAt] as decoded from the name; [None] when the entry is
    skipped, a thrown [RangeError] when the stamp is no date. *)
Definition decodeArchivedName (entryName : string)
  : Result (option (string * string)) :=
  match matchArchivedName entryName with
  | None => Return None
  | Some (originalName, stamp) =>
      match matchStamp stamp with
      | None => Return None
      | Some groups =>
          match parseToISOString (isoTimestamp groups) with
          | Return archivedAt => Return (Some (originalName, archivedAt))
          | Throw e => Throw e
          end
      end
  end.

(** [new Date().toISOString().replace(/[:.]/g, '-')] at the instant [now]. *)
Definition encodeTimestamp (now : Date) : string :=
  mapChars (fun c => if Ascii.eqb c ":" || Ascii.eqb c "." then "-"%char else c)
           (toISOString now).

(** The directory name [doDeleteSkill] archives [skillName] under. *)
Definition archivedNameOf (skillName : string) (now : Date) : string :=
  skillName +:+ "_" +:+ encodeTimestamp now.

(** [archivedSkillName.replace(/_\d{4}-\d{2}-\d{2}T\d{2}-\d{2}-\d{2}(?:-\d{3})?Z$/, '')]:
    the leftmost place where [_] and a stamp end the string is cut off. *)
Fixpoint stripStamp (s : string) : string :=
  match s with
  | EmptyString => EmptyString
  | String c rest =>
      if Ascii.eqb c "_" && isStamp rest then EmptyString
      else String c (stripStamp rest)
  end.

(** *** The manifest's name line *)

(** [\s*.+$] under the [m] flag, from the start of [s]: the length of the
    match. [\s*] is greedy and gives back; [.+] runs to the end of the line. *)
Fixpoint matchNameRest (s : string) : option nat :=
  let dotPlus :=
    let n := spanLength (fun c => negb (isLineTerminator c)) s in
    if Nat.eqb n 0 then None else Some n in
  match s with
  | EmptyString => None
  | String c s' =>
      if isSpace c then
        match matchNameRest s' with
        | Some n => Some (S n)
        | None => dotPlus
        end
      else dotPlus
  end.

(** [content.replace(/^name:\s*.+$/m, replacement)]: the first match, from
    the left, is replaced. [replacement] holds no [$]. *)
Fixpoint replaceNameLine (atLineStart : bool) (s replacement : string) : string :=
  match s with
  | EmptyString => EmptyString
  | String c s' =>
      let next := String c (replaceNameLine (isLineTerminator c) s' replacement) in
      if atLineStart && startsWith s "name:" then
        match matchNameRest (drop 5 s) with
        | Some n => replacement +:+ drop (5 + n) s
        | None => next
        end
      else next
  end.

(** *** Read-only operations *)

(** [listSkills()] *)
Definition withFileStat (skill : SkillMetadata) : M SkillInfo :=
  st ← safeGetFileStat (sm_path skill);
  mret (mkInfo skill
          (option_map (fun s => toISOString (Fs.st_birthtime s)) st)
          (option_map (fun s => toISOString (Fs.st_mtime s)) st)).

Definition listSkills (m : Manager) : M (list SkillInfo) :=
  w ← getWorld;
  let allSkills := getSkillsMetadata (skillsManager m) w in
  let onlineSkills :=
    List.filter
      (fun skill =>
         negb (includes (sm_baseDir skill) "/.archived/")
         && negb (includes (sm_baseDir skill) "\.archived\"))
      allSkills in
  mapAwait withFileStat onlineSkills.

(** [getSkillFileTree(skillName)] *)
Definition getSkillFileTree (m : Manager) (skillName : string)
  : M SandboxFileManager.SkillFileTree :=
  w ← getWorld;
  match loadSkillContent (skillsManager m) w skillName with
  | None => throw (newError ("Skill not found: " +:+ skillName))
  | Some skill =>
      if inArchivedDirectory (sm_baseDir (metadata skill)) then
        throw (newError ("Cannot get file tree for archived skill: " +:+ skillName))
      else
        SandboxFileManager.listFiles (sandboxFileManager m)
          (sm_baseDir (metadata skill)) "."
  end.

(** [getSkillInfo(skillName)]; [None] is [null]. *)
Definition getSkillInfo (m : Manager) (skillName : string)
  : M (option SkillDetail) :=
  w ← getWorld;
  match loadSkillContent (skillsManager m) w skillName with
  | None => mret None
  | Some skill =>
      if inArchivedDirectory (sm_baseDir (metadata skill)) then
        throw (newError ("Cannot get info for archived skill: " +:+ skillName))
      else
        files ← getSkillFileTree m skillName;
        st ← safeGetFileStat (sm_path (metadata skill));
        mret (Some
          (mkDetail (sm_name (metadata skill)) (sm_description (metadata skill))
                    (sm_path (metadata skill)) (sm_baseDir (metadata skill))
                    (option_map (fun s => toISOString (Fs.st_birthtime s)) st)
                    (option_map (fun s => toISOString (Fs.st_mtime s)) st)
                    files (references skill) (scripts skill) (assets skill)))
  end.

(** One turn of the loop of [listArchivedSkills]: the entry's record, or
    [None] where the loop says [continue]. *)
Definition archivedEntry (archivedDir : string) (entry : Fs.Dirent)
  : M (option ArchivedSkillInfo) :=
  if negb (Fs.d_isDirectory entry) then mret None
  else
    let archivedPath := Path.join [archivedDir; Fs.d_name entry] in
    let skillMdPath := Path.join [archivedPath; "SKILL.md"] in
    hasManifest ← fileExists skillMdPath;
    if negb hasManifest then mret None
    else
      match decodeArchivedName (Fs.d_name entry) with
      | Throw e => throw e
      | Return None => mret None
      | Return (Some (originalName, archivedAt)) =>
          st ← safeGetFileStat archivedPath;
          mret (Some
            (mkArchived originalName (Fs.d_name entry) archivedPath
               (match st with
                | Some s =>
                    if String.eqb (toISOString (Fs.st_mtime s)) ""
                    then archivedAt else toISOString (Fs.st_mtime s)
                | None => archivedAt
                end)))
      end.

(** [listArchivedSkills()] *)
Definition listArchivedSkills (m : Manager) : M (list ArchivedSkillInfo) :=
  let archivedDir := archivedDir m in
  present ← fileExists archivedDir;
  if negb present then mret []
  else
    tryCatch
      (entries ← FsPromises.readdir archivedDir;
       found ← mapAwait (archivedEntry archivedDir) entries;
       mret (SandboxFileManager.sortBy
               (fun a b => localeCompare (archivedAt b) (archivedAt a))
               (omap (fun x => x) found)))
      (fun _ => mret []).

(** *** The task bodies *)

Definition archivedConflict (skillName : string) : Error :=
  newError ("Archived skill with name '" +:+ skillName
            +:+ "' already exists. Please restore or permanently delete it first.").

(** [doCreateSkill(skillName, options)] *)
Definition doCreateSkill (m : Manager) (skillName : string)
    (options : CreateSkillOptions) : M unit :=
  if negb (isValidSkillName skillName) then
    throw (newError ("Invalid skill name: " +:+ skillName))
  else
    archivedSkills ← listArchivedSkills m;
    match List.find (fun s => String.eqb (originalName s) skillName)
                    archivedSkills with
    | Some _ => throw (archivedConflict skillName)
    | None =>
        w ← getWorld;
        match loadSkillContent (skillsManager m) w skillName with
        | Some existingSkill =>
            if inArchivedDirectory (sm_baseDir (metadata existingSkill))
            then throw (archivedConflict skillName)
            else throw (newError ("Skill already exists: " +:+ skillName))
        | None =>
            let skillDir := Path.join [skillsDir m; skillName] in
            _ ← FsPromises.mkdir skillDir true;
            _ ← FsPromises.mkdir (Path.join [skillDir; "references"]) false;
            _ ← FsPromises.mkdir (Path.join [skillDir; "scripts"]) false;
            _ ← FsPromises.mkdir (Path.join [skillDir; "assets"]) false;
            FsPromises.writeFile (Path.join [skillDir; "SKILL.md"])
                                 (generateSkillMd options)
        end
    end.

(** [doRenameSkill(oldName, newName)] *)
Definition doRenameSkill (m : Manager) (oldName newName : string) : M unit :=
  w ← getWorld;
  match loadSkillContent (skillsManager m) w oldName with
  | None => throw (newError ("Skill not found: " +:+ oldName))
  | Some _ =>
      if negb (isValidSkillName newName) then
        throw (newError ("Invalid skill name: " +:+ newName))
      else
        match loadSkillContent (skillsManager m) w newName with
        | Some _ => throw (newError ("Skill already exists: " +:+ newName))
        | None =>
            let oldPath := Path.join [skillsDir m; oldName] in
            let newPath := Path.join [skillsDir m; newName] in
            _ ← FsPromises.rename oldPath newPath;
            let skillMdPath := Path.join [newPath; "SKILL.md"] in
            content ← FsPromises.readFile skillMdPath;
            FsPromises.writeFile skillMdPath
              (replaceNameLine true content ("name: " +:+ newName))
        end
  end.

(** [doEditSkillFile(skillName, filePath, content, useSandbox)] *)
Definition doEditSkillFile (m : Manager) (skillName filePath content : string)
    (useSandbox : bool) : M unit :=
  w ← getWorld;
  match loadSkillContent (skillsManager m) w skillName with
  | None => throw (newError ("Skill not found: " +:+ skillName))
  | Some skill =>
      if inArchivedDirectory (sm_baseDir (metadata skill)) then
        throw (newError ("Cannot edit archived skill: " +:+ skillName
                         +:+ ". Please restore it first."))
      else
        let normalizedPath := Path.normalize filePath in
        if startsWith normalizedPath ".." || Path.isAbsolute normalizedPath then
          throw (newError ("Invalid file path: " +:+ filePath))
        else if useSandbox then
          SandboxFileManager.writeFile (sandboxFileManager m)
            (sm_baseDir (metadata skill)) normalizedPath content
        else
          FsPromises.writeFile
            (Path.join [sm_baseDir (metadata skill); normalizedPath]) content
  end.

(** [doDeleteSkill(skillName)] *)
Definition doDeleteSkill (m : Manager) (skillName : string) : M unit :=
  w ← getWorld;
  match loadSkillContent (skillsManager m) w skillName with
  | None => throw (newError ("Skill not found: " +:+ skillName))
  | Some skill =>
      _ ← FsPromises.mkdir (archivedDir m) true;
      w ← getWorld;
      let archivedName := archivedNameOf skillName (clock w) in
      let archivedPath := Path.join [archivedDir m; archivedName] in
      FsPromises.rename (sm_baseDir (metadata skill)) archivedPath
  end.

(** [doRestoreSkill(archivedSkillName)] *)
Definition doRestoreSkill (m : Manager) (archivedSkillName : string) : M unit :=
  let archivedPath := Path.join [archivedDir m; archivedSkillName] in
  present ← fileExists archivedPath;
  if negb present then
    throw (newError ("Archived skill not found: " +:+ archivedSkillName))
  else
    let originalName := stripStamp archivedSkillName in
    let targetPath := Path.join [skillsDir m; originalName] in
    taken ← fileExists targetPath;
    if (taken : bool) then throw (newError ("Skill already exists: " +:+ originalName))
    else FsPromises.rename archivedPath targetPath.

(** *** The public mutating operations

    Each builds a task around its body, enqueues it, polls it until it has
    settled or thirty seconds have passed, and throws what the task
    recorded. A [Submission] is the task object an operation creates and
    what the operation does once [enqueue] has returned; [obs k] is the task
    object as the [k]-th test of the polling loop finds it. *)

Definition newTask (uuid : string) (type : OperationType) (targetSkill : string)
    (body : M unit) (now : Date) : OperationTask :=
  mkTask uuid type targetSkill PENDING body now None None None.

Definition settled (t : OperationTask) : bool :=
  match status t with
  | COMPLETED | FAILED => true
  | PENDING | PROCESSING => false
  end.

(** The loop of [waitForTask]: the number of the test at which it ends. *)
Fixpoint pollLoop (fuel : nat) (obs : nat -> OperationTask) (k : nat)
    (totalWaited : N) : nat :=
  match fuel with
  | O => k
  | S fuel' =>
      if negb (settled (obs k)) && N.ltb totalWaited 30000
      then pollLoop fuel' obs (S k) (totalWaited + 100)%N
      else k
  end.

(** The test at which the loop ends: it ends by the 301st, when
    [totalWaited] has reached [maxWaitTime]. *)
Definition lastPoll (obs : nat -> OperationTask) : nat := pollLoop 300 obs 0 0%N.

(** [waitForTask(task)] *)
Definition waitForTask (obs : nat -> OperationTask) : M unit :=
  let task := obs (lastPoll obs) in
  if settled task then mret tt
  else throw (newError ("Operation timeout: " +:+ typeString (type task)
                        +:+ " - " +:+ targetSkill task)).

(** [await this.waitForTask(task); if (task.error) throw task.error;] *)
Definition awaitOutcome (obs : nat -> OperationTask) : M unit :=
  _ ← waitForTask obs;
  match error (obs (lastPoll obs)) with
  | Some e => throw e
  | None => mret tt
  end.

Record Submission (A : Type) := mkSubmission {
  task : OperationTask;
  resume : (nat -> OperationTask) -> M A }.
Arguments mkSubmission {A} task resume.
Arguments task {A} s.
Arguments resume {A} s obs.

(** [createSkill(skillName, options)] *)
Definition createSkill (m : Manager) (skillName : string)
    (options : CreateSkillOptions) (uuid : string) (now : Date)
  : Submission SkillDetail :=
  mkSubmission
    (newTask uuid CREATE skillName (doCreateSkill m skillName options) now)
    (fun obs =>
       _ ← awaitOutcome obs;
       skillDetail ← getSkillInfo m skillName;
       match skillDetail with
       | None =>
           throw (newError ("Failed to get skill info after creation: "
                            +:+ skillName))
       | Some d => mret d
       end).

(** [renameSkill(oldName, newName)] *)
Definition renameSkill (m : Manager) (oldName newName uuid : string) (now : Date)
  : Submission unit :=
  mkSubmission
    (newTask uuid RENAME (oldName +:+ " -> " +:+ newName)
             (doRenameSkill m oldName newName) now)
    awaitOutcome.

(** [editSkillFile(skillName, filePath, content, useSandbox = true)] *)
Definition editSkillFile (m : Manager) (skillName filePath content : string)
    (useSandbox : option bool) (uuid : string) (now : Date) : Submission unit :=
  mkSubmission
    (newTask uuid EDIT skillName
             (doEditSkillFile m skillName filePath content
                (match useSandbox with Some b => b | None => true end)) now)
    awaitOutcome.

(** [deleteSkill(skillName)] *)
Definition deleteSkill (m : Manager) (skillName uuid : string) (now : Date)
  : Submission unit :=
  mkSubmission (newTask uuid DELETE skillName (doDeleteSkill m skillName) now)
               awaitOutcome.

(** [restoreSkill(archivedSkillName)] *)
Definition restoreSkill (m : Manager) (archivedSkillName uuid : string)
    (now : Date) : Submission unit :=
  mkSubmission
    (newTask uuid RESTORE archivedSkillName
             (doRestoreSkill m archivedSkillName) now)
    awaitOutcome.

End SkillsManagementManager.

(* ================================================================= *)
(** ** A metadata reader *)

Module DiskReader.
Import JS SkillsManagementManager.

(** Modelled from the spec: the metadata reader ([SkillsManager]), whose
    source is not part of the files at hand. It scans the skills directory
    recursively, the archive directory inside it included; a directory is a
    skill when it holds a manifest [SKILL.md] that begins with a front-matter
    block giving a name. A skill is loaded by the name in its manifest. *)

Definition trimLeft (s : string) : string := drop (spanLength isSpace s) s.

Fixpoint frontMatterValue (key : string) (lines : list string) : option string :=
  match lines with
  | [] => None
  | line :: rest =>
      if String.eqb line "---" then None
      else if startsWith line (key +:+ ":")
      then Some (trimLeft (drop (String.length key + 1) line))
      else frontMatterValue key rest
  end.

Definition readManifest (baseDir : string) (text : string) : option SkillMetadata :=
  match splitOn LF text with
  | first :: lines =>
      if String.eqb first "---" then
        match frontMatterValue "name" lines with
        | Some name =>
            Some (mkMetadata name
                    (match frontMatterValue "description" lines with
                     | Some d => d
                     | None => ""
                     end)
                    (Path.join [baseDir; "SKILL.md"]) baseDir)
        | None => None
        end
      else None
  | [] => None
  end.

Definition skillAt (baseDir : string) (es : list (string * Fs.node))
  : list SkillContent :=
  match Fs.assoc "SKILL.md" es with
  | Some (Fs.File text _ _) =>
      match readManifest baseDir text with
      | Some meta => [mkContent meta text [] [] []]
      | None => []
      end
  | _ => []
  end.

Fixpoint scan (dirPath : string) (n : Fs.node) : list SkillContent :=
  match n with
  | Fs.File _ _ _ => []
  | Fs.Dir es _ _ =>
      skillAt dirPath es ++
      (fix each (es : list (string * Fs.node)) : list SkillContent :=
         match es with
         | [] => []
         | (name, c) :: es' => scan (Path.join [dirPath; name]) c ++ each es'
         end) es
  end.

Definition scanDisk (skillsDir : string) (w : World) : list SkillContent :=
  match Fs.lookup (FsPromises.locate w skillsDir) (root w) with
  | Some n => scan skillsDir n
  | None => []
  end.

(** Modelled from the spec: [load(name)] and [scan()] over the disk as it
    is at the call. *)
Definition reader (skillsDir : string) : SkillsManager :=
  mkSkillsManager
    (fun w name =>
       List.find (fun s => String.eqb (sm_name (metadata s)) name)
                 (scanDisk skillsDir w))
    (fun w => List.map metadata (scanDisk skillsDir w)).

End DiskReader.

(* ================================================================= *)
(** * Notions of the statements *)

Open Scope string_scope.
Open Scope list_scope.

(** ** The queue machine *)

Section QueueNotions.
Import OperationQueue.

(** An idle queue is empty and runs nothing; a busy one runs one body. *)
Definition wellFormed (m : Machine) : Prop :=
  if processing m then exists r, loops m = [r]
  else queue m = [] /\ loops m = [].

(** Started tasks and waiting tasks, in this order, were enqueued in this
    order, with discarded tasks in between. *)
Definition inOrder (m : Machine) : Prop :=
  startedLog m ++ queue m `sublist_of` enqueued m.

(** Nothing was discarded. *)
Definition complete (m : Machine) : Prop :=
  enqueued m = startedLog m ++ queue m.

End QueueNotions.

(** ** The file tree *)

Section TreeNotions.
Import Fs.


End TreeNotions.

(** ** Paths in a world *)

Section WorldNotions.
Import JS.

Definition existsAt (w : World) (p : string) : bool :=
  match Fs.lookup (FsPromises.locate w p) (root w) with
  | Some _ => true
  | None => false
  end.

Definition nodeAt (w : World) (p : string) : option Fs.node :=
  Fs.lookup (FsPromises.locate w p) (root w).





End WorldNotions.

(** ** Names and stamps *)

Section NameNotions.
Import JS JSDate SkillsManagementManager.

(** The date-time layout shared by the ISO form and the archive stamp:
    [a] separates the time components, [b] the milliseconds. *)
Definition layout (a b : ascii) (d : Date) : string :=
  padDigits 4 (year d) +:+ "-" +:+ padDigits 2 (month d) +:+ "-"
  +:+ padDigits 2 (day d) +:+ "T" +:+ padDigits 2 (hours d) +:+ str a
  +:+ padDigits 2 (minutes d) +:+ str a +:+ padDigits 2 (seconds d).

Definition layoutMillis (a b : ascii) (d : Date) : string :=
  layout a b d +:+ str b +:+ padDigits 3 (milliseconds d) +:+ "Z".

Definition layoutSeconds (a b : ascii) (d : Date) : string :=
  layout a b d +:+ "Z".

Definition noLineTerminator (s : string) : bool :=
  allChars (fun c => negb (isLineTerminator c)) s.

(** The legacy directory name, without milliseconds. *)
Definition legacyArchivedNameOf (skillName : string) (d : Date) : string :=
  skillName +:+ "_" +:+ layoutSeconds "-" "-" d.

(** The stamp of the legacy archive names: that of [doDeleteSkill] without
    its milliseconds, [YYYY-MM-DDTHH-MM-SSZ]. *)
Definition legacyStamp (d : Date) : string := take 19 (encodeTimestamp d) +:+ "Z".

(** The pattern [^[A-Za-z0-9_-]+$] and the bounds on the length, in the
    words of the spec. *)
Definition nameCharacter (c : ascii) : Prop :=
  let n := nat_of_ascii c in
  (65 <= n /\ n <= 90) \/ (97 <= n /\ n <= 122) \/ (48 <= n /\ n <= 57)
  \/ c = "_"%char \/ c = "-"%char.

Definition validName (name : string) : Prop :=
  Forall nameCharacter (list_ascii_of_string name)
  /\ 1 <= String.length name /\ String.length name <= 50.

End NameNotions.

(** ** Runs of the manager *)

Section ManagerNotions.
Import JS JSDate OperationQueue SkillsManagementManager.

(** What [stat] finds at a path. *)
Definition statAt (w : World) (p : string) : option Fs.Stats :=
  option_map Fs.statOf (nodeAt w p).


(** The worlds differ by the calls logged only. *)
Definition sameDisk (w w' : World) : Prop :=
  root w' = root w /\ clock w' = clock w /\ cwd w' = cwd w
  /\ platform w' = platform w.

(** The computation throws nothing but errors of the file system. *)
Definition fsFails {A} (c : M A) : Prop :=
  forall w e, fst (c w) = Throw e -> exists k call p, e = FsPromises.fsError k call p.

Definition readOnly {A} (c : M A) : Prop := forall w, sameDisk w (snd (c w)).

(** Steps 3 and 4 of [doRenameSkill]: move the directory, patch the manifest. *)
Definition renameSteps (m : Manager) (oldName newName : string) : M unit :=
  let oldPath := Path.join [skillsDir m; oldName] in
  let newPath := Path.join [skillsDir m; newName] in
  _ ← FsPromises.rename oldPath newPath;
  let skillMdPath := Path.join [newPath; "SKILL.md"] in
  content ← FsPromises.readFile skillMdPath;
  FsPromises.writeFile skillMdPath
    (replaceNameLine true content ("name: " +:+ newName)).

(** Step 2 and 3 of [doCreateSkill]: the directories and the manifest. *)
Definition createSteps (m : Manager) (skillName : string)
    (options : CreateSkillOptions) : M unit :=
  let skillDir := Path.join [skillsDir m; skillName] in
  _ ← FsPromises.mkdir skillDir true;
  _ ← FsPromises.mkdir (Path.join [skillDir; "references"]) false;
  _ ← FsPromises.mkdir (Path.join [skillDir; "scripts"]) false;
  _ ← FsPromises.mkdir (Path.join [skillDir; "assets"]) false;
  FsPromises.writeFile (Path.join [skillDir; "SKILL.md"]) (generateSkillMd options).

End ManagerNotions.

(** ** Concrete disks and managers *)

Module Scenario.
Import JS JSDate SkillsManagementManager.

(** 2026-01-15T05:05:01.350Z *)
Definition t0 : Date := mkDate 2026 1 15 5 5 1 350.

(** A disk with an empty skills directory. *)
Definition emptyDisk : World :=
  mkWorld (Fs.Dir [("skills", Fs.Dir [] t0 t0)] t0 t0) t0 "/" "linux" [].

(** A manager with the default archive root, [/skills/.archived], and one
    whose archive root is configured to be [/skills/old]. *)
Definition standard : Manager := new "/" DiskReader.reader "/skills" None None.

Definition demoOptions : CreateSkillOptions :=
  mkOptions "demo" (Some "A demonstration").

(** The disk after [createSkill("demo")], after [deleteSkill("demo")] then,
    and after [createSkill("other")] then. *)
Definition created (m : Manager) : World :=
  snd (doCreateSkill m "demo" demoOptions emptyDisk).
Definition archived (m : Manager) : World :=
  snd (doDeleteSkill m "demo" (created m)).
Definition withOther (m : Manager) : World :=
  snd (doCreateSkill m "other" (mkOptions "other" None) (archived m)).

(** A skill directory [/skills/demo] beside a file [/skills/secret]. *)
Definition secretDisk : World :=
  mkWorld
    (Fs.Dir [("skills",
              Fs.Dir [("demo", Fs.Dir [] t0 t0);
                      ("secret", Fs.File "s3cr3t" t0 t0)] t0 t0)] t0 t0)
    t0 "/" "linux" [].

End Scenario.

Module QueueScenario.
Import JS JSDate OperationQueue SkillsManagementManager Scenario.

(** Two task objects: a restore that will fail, and a create. *)
Definition failing : OperationTask :=
  task (restoreSkill standard "nope_2026-01-15T05-05-01-350Z" "uuid-1" t0).
Definition following : OperationTask :=
  task (createSkill standard "demo" demoOptions "uuid-2" t0).
Definition objects : gmap ref OperationTask :=
  <[0 := failing]> (<[1 := following]> ∅).

(** Both were enqueued; the first is running. *)
Definition busy : Machine := run (initial emptyDisk objects) [Enqueue 0; Enqueue 1].

Definition notFound : Error :=
  newError "Archived skill not found: nope_2026-01-15T05-05-01-350Z".

End QueueScenario.

(* ================================================================= *)
(** * Properties *)

(* ================================================================= *)
(** ** The operation queue serializes *)

Section QueueInvariants.
Import OperationQueue.

Lemma drain_wellFormed (m : Machine) :
  processing m = true -> loops m = [] -> wellFormed (drain m).
Proof.
  intros Hp Hl. unfold drain, wellFormed, dequeue.
  destruct (queue m) as [|r q] eqn:Hq; simpl.
  - rewrite Hl. auto.
  - rewrite Hp, Hl. simpl. eauto.
Qed.

Lemma drain_complete (m : Machine) : complete m -> complete (drain m).
Proof.
  unfold complete, drain, dequeue. intros H.
  destruct (queue m) as [|r q] eqn:Hq; simpl; [exact H|].
  rewrite H, <- app_assoc. reflexivity.
Qed.

Lemma drain_inOrder (m : Machine) : inOrder m -> inOrder (drain m).
Proof.
  unfold inOrder, drain, dequeue. intros H.
  destruct (queue m) as [|r q] eqn:Hq; simpl; [exact H|].
  rewrite <- app_assoc. exact H.
Qed.

Lemma step_wellFormed (m : Machine) (e : Event) :
  wellFormed m -> wellFormed (step m e).
Proof.
  intros H. destruct e as [r|i| |r t|now]; simpl.
  - unfold enqueue; simpl. unfold wellFormed in H.
    destruct (processing m) eqn:Hp; simpl.
    + unfold wellFormed; simpl. exact H.
    + destruct H as [_ Hl]. apply drain_wellFormed; simpl; auto.
  - unfold settle. destruct (loops m !! i) as [r|] eqn:Hi; [|exact H].
    destruct (heap m !! r) as [t|]; [|exact H].
    destruct (execute t (world m)) as [res w] eqn:Hex.
    unfold wellFormed in H. destruct (processing m) eqn:Hp.
    + destruct H as [r' Hl]. rewrite Hl in Hi.
      destruct i as [|i]; [|discriminate Hi].
      apply drain_wellFormed; simpl; [reflexivity|]. rewrite Hl. reflexivity.
    + destruct H as [_ Hl]. rewrite Hl in Hi. discriminate Hi.
  - unfold clear, wellFormed in *; simpl.
    destruct (processing m); [exact H|]. destruct H; auto.
  - exact H.
  - exact H.
Qed.

Lemma step_inOrder (m : Machine) (e : Event) : inOrder m -> inOrder (step m e).
Proof.
  intros H. destruct e as [r|i| |r t|now]; simpl; try exact H.
  - unfold enqueue; simpl.
    assert (Hpush : inOrder (mkMachine (world m) (heap m) (queue m ++ [r])
                      (processing m) (loops m) (enqueued m ++ [r]) (startedLog m))).
    { unfold inOrder in *; simpl. rewrite app_assoc.
      apply sublist_app; [exact H|reflexivity]. }
    destruct (processing m); simpl; [exact Hpush|].
    apply drain_inOrder. exact Hpush.
  - unfold settle. destruct (loops m !! i) as [r|]; [|exact H].
    destruct (heap m !! r) as [t|]; [|exact H].
    destruct (execute t (world m)) as [res w].
    apply drain_inOrder. exact H.
  - unfold clear, inOrder in *; simpl. rewrite app_nil_r.
    etransitivity; [|exact H]. apply sublist_inserts_r. reflexivity.
Qed.

Lemma step_complete (m : Machine) (e : Event) :
  isClear e = false -> complete m -> complete (step m e).
Proof.
  intros Hc H. destruct e as [r|i| |r t|now]; simpl; try exact H.
  - unfold enqueue; simpl.
    assert (Hpush : complete (mkMachine (world m) (heap m) (queue m ++ [r])
                      (processing m) (loops m) (enqueued m ++ [r]) (startedLog m))).
    { unfold complete in *; simpl. rewrite H, app_assoc. reflexivity. }
    destruct (processing m); simpl; [exact Hpush|].
    apply drain_complete. exact Hpush.
  - unfold settle. destruct (loops m !! i) as [r|]; [|exact H].
    destruct (heap m !! r) as [t|]; [|exact H].
    destruct (execute t (world m)) as [res w].
    apply drain_complete. exact H.
  - discriminate Hc.
Qed.

Lemma run_wellFormed (evs : list Event) (m : Machine) :
  wellFormed m -> wellFormed (run m evs).
Proof.
  revert m. induction evs as [|e evs IH]; intros m H; simpl; [exact H|].
  apply IH, step_wellFormed, H.
Qed.

Lemma run_inOrder (evs : list Event) (m : Machine) :
  inOrder m -> inOrder (run m evs).
Proof.
  revert m. induction evs as [|e evs IH]; intros m H; simpl; [exact H|].
  apply IH, step_inOrder, H.
Qed.

Lemma run_complete (evs : list Event) (m : Machine) :
  forallb (fun e => negb (isClear e)) evs = true ->
  complete m -> complete (run m evs).
Proof.
  revert m. induction evs as [|e evs IH]; intros m Hc H; simpl; [exact H|].
  simpl in Hc. apply andb_true_iff in Hc as [He Hc].
  apply IH; [exact Hc|]. apply step_complete; [|exact H].
  destruct (isClear e); [discriminate He|reflexivity].
Qed.

Lemma wellFormed_running (m : Machine) : wellFormed m -> length (running m) <= 1.
Proof.
  unfold wellFormed, running. destruct (processing m).
  - intros [r ->]. simpl. lia.
  - intros [_ ->]. simpl. lia.
Qed.

(** C1. Whatever the callers do and in whatever order the bodies settle,
    at most one task body is executing at any time; the tasks started and
    the tasks waiting are, in this order, in the order they were enqueued;
    and, where no caller cleared the queue, they are all the tasks that were
    enqueued: bodies start in enqueue order, none skipped. *)
Theorem C1_serial_fifo (w : World) (h : gmap ref OperationTask)
    (evs : list Event) :
  let m := run (initial w h) evs in
  length (running m) <= 1
  /\ startedLog m ++ queue m `sublist_of` enqueued m
  /\ (forallb (fun e => negb (isClear e)) evs = true ->
      enqueued m = startedLog m ++ queue m).
Proof.
  intros m. subst m. split; [|split].
  - apply wellFormed_running, run_wellFormed. unfold wellFormed; simpl. auto.
  - apply (run_inOrder evs). unfold inOrder; simpl. reflexivity.
  - intros Hc. apply (run_complete evs); [exact Hc|]. reflexivity.
Qed.

End QueueInvariants.

(* ================================================================= *)
(** ** A failed task: recorded by the queue, thrown again by the manager *)

Section Failure.
Import OperationQueue SkillsManagementManager.

Lemma pollLoop_first (obs : nat -> OperationTask) (k : nat) :
  k <= 300 ->
  (forall j, j < k -> settled (obs j) = false) ->
  settled (obs k) = true ->
  forall fuel i tw,
    i <= k -> k <= i + fuel -> tw = (100 * N.of_nat i)%N ->
    pollLoop fuel obs i tw = k.
Proof.
  intros Hk Hbefore Hat. induction fuel as [|fuel IH]; intros i tw Hi Hf Htw.
  - simpl. lia.
  - simpl. destruct (decide (i = k)) as [->|Hne].
    + rewrite Hat. reflexivity.
    + rewrite Hbefore by lia. simpl.
      assert (Hlt : (tw <? 30000)%N = true) by (apply N.ltb_lt; lia).
      rewrite Hlt. apply IH; lia.
Qed.

Lemma lastPoll_first (obs : nat -> OperationTask) (k : nat) :
  k <= 300 ->
  (forall j, j < k -> settled (obs j) = false) ->
  settled (obs k) = true ->
  lastPoll obs = k.
Proof.
  intros Hk Hbefore Hat. unfold lastPoll.
  apply (pollLoop_first obs k Hk Hbefore Hat); lia.
Qed.

(** Once the polling loop has seen the task settled with an error recorded,
    the caller gets that error. *)
Lemma awaitOutcome_rethrows (obs : nat -> OperationTask) (k : nat) (e : Error)
    (w : World) :
  k <= 300 ->
  (forall j, j < k -> settled (obs j) = false) ->
  settled (obs k) = true ->
  error (obs k) = Some e ->
  awaitOutcome obs w = (Throw e, w).
Proof.
  intros Hk Hbefore Hat He.
  unfold awaitOutcome, waitForTask, mbind, M_bind, bind.
  rewrite (lastPoll_first obs k Hk Hbefore Hat), Hat, He. reflexivity.
Qed.

Lemma drain_heap_other (m : Machine) (r : ref) :
  r ∉ queue m -> heap (drain m) !! r = heap m !! r.
Proof.
  intros Hr. unfold drain, dequeue.
  destruct (queue m) as [|next rest] eqn:Hq; simpl; [reflexivity|].
  apply lookup_alter_ne. intros ->. apply Hr. left.
Qed.

(** C3. The body of the running task throws [e]. Then the queue records
    the failure on the task object (status, completion time, the error
    itself) and the loop goes on: it starts the next task, or, with none
    waiting, ends and leaves the queue idle. A public mutating operation
    whose polling then finds the task settled throws [e] itself. *)
Theorem C3_failure_recorded_and_rethrown
    (m : Machine) (r : ref) (t : OperationTask) (e : Error) (w' : World) :
  running m = [r] ->
  heap m !! r = Some t ->
  execute t (world m) = (Throw e, w') ->
  r ∉ queue m ->
  let m' := step m (Settle 0) in
  let t' := failed (clock w') e t in
  heap m' !! r = Some t'
  /\ status t' = FAILED /\ completedAt t' = Some (clock w') /\ error t' = Some e
  /\ world m' = w'
  /\ match queue m with
     | [] => processing m' = false /\ running m' = [] /\ queue m' = []
     | next :: rest =>
         processing m' = processing m /\ running m' = [next] /\ queue m' = rest
         /\ startedLog m' = startedLog m ++ [next]
         /\ forall tn, heap m !! next = Some tn ->
                       heap m' !! next = Some (started (clock w') tn)
     end
  /\ forall (obs : nat -> OperationTask) (k : nat) (w : World),
       k <= 300 ->
       (forall j, j < k -> settled (obs j) = false) ->
       heap m' !! r = Some (obs k) ->
       forall (mg : Manager) (name other path text uuid : string)
              (options : CreateSkillOptions) (useSandbox : option bool)
              (now : JSDate.Date),
         resume (createSkill mg name options uuid now) obs w = (Throw e, w)
         /\ resume (renameSkill mg name other uuid now) obs w = (Throw e, w)
         /\ resume (editSkillFile mg name path text useSandbox uuid now) obs w
            = (Throw e, w)
         /\ resume (deleteSkill mg name uuid now) obs w = (Throw e, w)
         /\ resume (restoreSkill mg name uuid now) obs w = (Throw e, w).
Proof.
  intros Hrun Hobj Hthrow Hfresh m' t'.
  unfold running in Hrun.
  assert (Hm' : m' = drain (mkMachine w' (alter (failed (clock w') e) r (heap m))
                              (queue m) (processing m) [] (enqueued m)
                              (startedLog m))).
  { subst m'. simpl. unfold settle. rewrite Hrun. simpl.
    rewrite Hobj, Hthrow. reflexivity. }
  assert (Hheap : heap m' !! r = Some t').
  { rewrite Hm', drain_heap_other by exact Hfresh. simpl.
    rewrite lookup_alter_eq, Hobj. reflexivity. }
  split; [exact Hheap|].
  split; [reflexivity|]. split; [reflexivity|]. split; [reflexivity|].
  split; [rewrite Hm'; unfold drain, dequeue; simpl;
          destruct (queue m); reflexivity|].
  split.
  - rewrite Hm'. unfold drain, dequeue, running. simpl.
    destruct (queue m) as [|next rest] eqn:Hq; simpl.
    + auto.
    + repeat split; try reflexivity.
      intros tn Hn. rewrite lookup_alter_eq.
      rewrite lookup_alter_ne, Hn; [reflexivity|].
      intros ->. apply Hfresh. left.
  - intros obs k w Hk Hbefore Hseen mg name other path text uuid options
           useSandbox now.
    rewrite Hheap in Hseen. injection Hseen as Hseen.
    assert (Hthrown : awaitOutcome obs w = (Throw e, w)).
    { apply (awaitOutcome_rethrows obs k e w Hk Hbefore);
        rewrite <- Hseen; reflexivity. }
    simpl. repeat split; try exact Hthrown.
    unfold mbind, M_bind, bind. rewrite Hthrown. reflexivity.
Qed.

End Failure.

(* ================================================================= *)
(** ** The file system: what a change leaves and what it moves *)

Section FileSystem.
Import Fs.
















End FileSystem.

(* ================================================================= *)
(** ** Archive names *)

Section ArchiveNames.
Import JS JSDate SkillsManagementManager.

Lemma digitChar_code (n : N) : N_of_ascii (digitChar n) = (48 + n mod 10)%N.
Proof.
  unfold digitChar. apply N_ascii_embedding.
  pose proof (N.mod_lt n 10 ltac:(lia)). lia.
Qed.

Lemma digitVal_digitChar (n : N) : digitVal (digitChar n) = (n mod 10)%N.
Proof. unfold digitVal. rewrite digitChar_code. generalize (n mod 10)%N. lia. Qed.

Lemma nat_of_digitChar (n : N) : nat_of_ascii (digitChar n) = 48 + N.to_nat (n mod 10).
Proof.
  unfold nat_of_ascii. rewrite digitChar_code. generalize (n mod 10)%N. lia.
Qed.

Lemma isDigit_digitChar (n : N) : isDigit (digitChar n) = true.
Proof.
  unfold isDigit. rewrite nat_of_digitChar.
  pose proof (N.mod_lt n 10 ltac:(lia)) as H. revert H.
  generalize (n mod 10)%N. intros d H.
  apply andb_true_iff. split; apply Nat.leb_le; lia.
Qed.

Lemma digitChar_neq (n : N) (c : ascii) :
  isDigit c = false -> Ascii.eqb (digitChar n) c = false.
Proof.
  intros Hc. destruct (Ascii.eqb_spec (digitChar n) c) as [E|]; [|reflexivity].
  rewrite <- E, isDigit_digitChar in Hc. discriminate Hc.
Qed.

Lemma digitChar_neq_sym (n : N) (c : ascii) :
  isDigit c = false -> Ascii.eqb c (digitChar n) = false.
Proof.
  intros Hc. rewrite Ascii.eqb_sym. apply digitChar_neq, Hc.
Qed.

Lemma readDigits_snoc (s : string) (c : ascii) :
  readDigits (s +:+ str c) = (10 * readDigits s + digitVal c)%N.
Proof.
  unfold readDigits. generalize 0%N as acc.
  induction s as [|a s IH]; intros acc; simpl; [reflexivity|apply IH].
Qed.

Lemma readDigits_padDigits (w : nat) : forall n,
  readDigits (padDigits w n) = (n mod 10 ^ N.of_nat w)%N.
Proof.
  induction w as [|w IH]; intros n.
  - simpl. rewrite N.mod_1_r. reflexivity.
  - cbn [padDigits]. rewrite readDigits_snoc, IH, digitVal_digitChar.
    rewrite Nat2N.inj_succ, N.pow_succ_r'.
    rewrite (N.Div0.mod_mul_r n 10).
    generalize ((n / 10) mod 10 ^ N.of_nat w)%N (n mod 10)%N. lia.
Qed.

Lemma readDigits_padDigits_small (w : nat) (n : N) :
  (n < 10 ^ N.of_nat w)%N -> readDigits (padDigits w n) = n.
Proof. intros H. rewrite readDigits_padDigits. apply N.mod_small, H. Qed.

#[local] Arguments digitChar : simpl never.
#[local] Arguments String.append !s1 s2 : simpl nomatch.

Lemma toISOString_layout (d : Date) :
  (year d <= 9999)%N -> toISOString d = layoutMillis ":" "." d.
Proof.
  intros Hy. unfold toISOString.
  destruct (N.leb_spec (year d) 9999) as [_|Hgt]; [|lia].
  cbn. reflexivity.
Qed.

Lemma encodeTimestamp_layout (d : Date) :
  (year d <= 9999)%N -> encodeTimestamp d = layoutMillis "-" "-" d.
Proof.
  intros Hy. unfold encodeTimestamp. rewrite toISOString_layout by exact Hy.
  unfold layoutMillis, layout. cbn -[Ascii.eqb].
  rewrite !digitChar_neq by reflexivity. cbn. reflexivity.
Qed.

#[local] Arguments readDigits : simpl never.

Lemma readDigits2 (x : N) :
  (x < 100)%N ->
  readDigits (String (digitChar (x / 10)) (String (digitChar x) "")) = x.
Proof. intros H. exact (readDigits_padDigits_small 2 x H). Qed.

Lemma readDigits3 (x : N) :
  (x < 1000)%N ->
  readDigits (String (digitChar (x / 10 / 10))
                (String (digitChar (x / 10)) (String (digitChar x) ""))) = x.
Proof. intros H. exact (readDigits_padDigits_small 3 x H). Qed.

Lemma readDigits4 (x : N) :
  (x <= 9999)%N ->
  readDigits (String (digitChar (x / 10 / 10 / 10))
                (String (digitChar (x / 10 / 10))
                   (String (digitChar (x / 10)) (String (digitChar x) "")))) = x.
Proof.
  intros H. apply (readDigits_padDigits_small 4 x).
  change (10 ^ N.of_nat 4)%N with 10000%N. lia.
Qed.

Lemma valid_bounds (d : Date) :
  valid d = true ->
  (month d < 100 /\ day d < 100 /\ hours d < 100 /\ minutes d < 100
   /\ seconds d < 100 /\ milliseconds d < 1000)%N.
Proof.
  unfold valid. intros H.
  repeat (apply andb_true_iff in H as [H ?]).
  repeat match goal with
         | E : N.leb _ _ = true |- _ => apply N.leb_le in E
         | E : N.ltb _ _ = true |- _ => apply N.ltb_lt in E
         end.
  assert (daysInMonth (year d) (month d) <= 31)%N.
  { unfold daysInMonth.
    repeat match goal with
           | |- context [match ?x with _ => _ end] => destruct x
           end; lia. }
  lia.
Qed.

Lemma isStamp_millis (d : Date) : isStamp (layoutMillis "-" "-" d) = true.
Proof.
  unfold isStamp, layoutMillis, layout. cbn.
  rewrite !isDigit_digitChar. reflexivity.
Qed.

Lemma isStamp_seconds (d : Date) : isStamp (layoutSeconds "-" "-" d) = true.
Proof.
  unfold isStamp, layoutSeconds, layout. cbn.
  rewrite !isDigit_digitChar. reflexivity.
Qed.

Lemma isoTimestamp_millis (d : Date) :
  option_map isoTimestamp (matchStamp (layoutMillis "-" "-" d))
  = Some (layoutMillis ":" "." d).
Proof.
  unfold matchStamp, layoutMillis, layout. cbn.
  rewrite !isDigit_digitChar. reflexivity.
Qed.

Lemma isoTimestamp_seconds (d : Date) :
  option_map isoTimestamp (matchStamp (layoutSeconds "-" "-" d))
  = Some (layoutSeconds ":" "." d).
Proof.
  unfold matchStamp, layoutSeconds, layout. cbn.
  rewrite !isDigit_digitChar. reflexivity.
Qed.

Lemma parse_millis (d : Date) :
  valid d = true -> (year d <= 9999)%N ->
  parse (layoutMillis ":" "." d) = Some d.
Proof.
  intros Hv Hy. destruct (valid_bounds d Hv) as (Hmo & Hda & Hh & Hmi & Hs & Hms).
  unfold parse, fieldsOf, layoutMillis, layout. cbn.
  rewrite !isDigit_digitChar. cbn.
  rewrite readDigits4, !readDigits2, readDigits3 by assumption.
  destruct d; cbn in *. rewrite Hv. reflexivity.
Qed.

Lemma parse_seconds (d : Date) :
  valid d = true -> (year d <= 9999)%N ->
  parse (layoutSeconds ":" "." d) = Some (withMilliseconds d 0).
Proof.
  intros Hv Hy. destruct (valid_bounds d Hv) as (Hmo & Hda & Hh & Hmi & Hs & Hms).
  unfold parse, fieldsOf, layoutSeconds, layout. cbn.
  rewrite !isDigit_digitChar. cbn.
  rewrite readDigits4, !readDigits2 by assumption.
  assert (Hv0 : valid (withMilliseconds d 0) = true).
  { unfold valid in *. cbn.
    repeat (apply andb_true_iff in Hv as [Hv ?]).
    repeat (apply andb_true_iff; split); assumption || reflexivity. }
  unfold withMilliseconds in *. rewrite Hv0. reflexivity.
Qed.

Lemma length_append (a b : string) :
  String.length (a +:+ b) = String.length a + String.length b.
Proof. induction a as [|c a IH]; cbn; [reflexivity|]. rewrite IH. reflexivity. Qed.

Lemma matchShape_length (shape : list Item) : forall s,
  matchShape shape s = true -> String.length s = length shape.
Proof.
  induction shape as [|i shape IH]; intros [|c s] H; cbn in *;
    try discriminate H; try reflexivity.
  - destruct i; discriminate H.
  - destruct i; apply andb_true_iff in H as [_ H]; rewrite (IH s H); reflexivity.
Qed.

Lemma isStamp_length (s : string) :
  isStamp s = true -> String.length s = 24 \/ String.length s = 20.
Proof.
  unfold isStamp. intros H. apply orb_true_iff in H as [H|H];
    apply matchShape_length in H; [left|right]; exact H.
Qed.

(** A stamp preceded by [_] and anything is no stamp. *)
Lemma isStamp_not_extended (o stamp : string) :
  isStamp stamp = true -> isStamp (o +:+ "_" +:+ stamp) = false.
Proof.
  intros Hs. destruct (isStamp (o +:+ "_" +:+ stamp)) eqn:E; [|reflexivity].
  exfalso.
  pose proof (isStamp_length _ Hs) as Hl.
  pose proof (isStamp_length _ E) as Hl'.
  rewrite !length_append in Hl'. cbn in Hl'.
  assert (Ho : String.length o = 3) by lia.
  destruct o as [|a [|b [|c [|? ?]]]]; try discriminate Ho.
  unfold isStamp in E. apply orb_true_iff in E as [E|E].
  - cbn in E.
    repeat (apply andb_true_iff in E as [? E]). discriminate.
  - apply matchShape_length in E. rewrite !length_append in E. cbn in E. lia.
Qed.

Lemma matchArchivedName_cons (c : ascii) (rest : string) :
  matchArchivedName (String c rest) =
  if isLineTerminator c then None
  else
    let longer :=
      match matchArchivedName rest with
      | Some (name, stamp) => Some (String c name, stamp)
      | None => None
      end in
    match rest with
    | String u stamp =>
        if Ascii.eqb u "_" && isStamp stamp then Some (str c, stamp) else longer
    | EmptyString => longer
    end.
Proof. reflexivity. Qed.

(** The pattern of [listArchivedSkills] splits an archive name at its stamp. *)
Lemma matchArchivedName_archived (name stamp : string) :
  name <> "" -> noLineTerminator name = true -> isStamp stamp = true ->
  matchArchivedName (name +:+ "_" +:+ stamp) = Some (name, stamp).
Proof.
  intros Hne Hnl Hs. induction name as [|c name IH]; [contradiction|].
  cbn in Hnl. apply andb_true_iff in Hnl as [Hc Hnl].
  destruct (isLineTerminator c) eqn:Ec; [discriminate Hc|].
  destruct name as [|c' name'].
  - cbn. rewrite Ec, Hs. reflexivity.
  - change ((String c (String c' name')) +:+ "_" +:+ stamp)
      with (String c (String c' (name' +:+ "_" +:+ stamp))).
    rewrite matchArchivedName_cons, Ec. cbv zeta iota beta.
    rewrite (isStamp_not_extended name' stamp Hs), andb_false_r.
    change (String c' (name' +:+ "_" +:+ stamp))
      with ((String c' name') +:+ "_" +:+ stamp).
    rewrite IH by (discriminate || exact Hnl). reflexivity.
Qed.

(** The replacement of [doRestoreSkill] cuts an archive name at its stamp. *)
Lemma stripStamp_archived (name stamp : string) :
  isStamp stamp = true -> stripStamp (name +:+ "_" +:+ stamp) = name.
Proof.
  intros Hs. induction name as [|c name IH].
  - cbn. rewrite Hs. reflexivity.
  - change ((String c name) +:+ "_" +:+ stamp)
      with (String c (name +:+ "_" +:+ stamp)).
    cbn [stripStamp].
    rewrite (isStamp_not_extended name stamp Hs), andb_false_r, IH.
    reflexivity.
Qed.

Lemma decode_millis (name : string) (d : Date) :
  name <> "" -> noLineTerminator name = true ->
  valid d = true -> (year d <= 9999)%N ->
  decodeArchivedName (archivedNameOf name d)
  = Return (Some (name, toISOString d)).
Proof.
  intros Hne Hnl Hv Hy. unfold decodeArchivedName, archivedNameOf.
  rewrite encodeTimestamp_layout by exact Hy.
  rewrite matchArchivedName_archived by (assumption || apply isStamp_millis).
  pose proof (isoTimestamp_millis d) as Hg.
  destruct (matchStamp (layoutMillis "-" "-" d)) as [g|]; [|discriminate Hg].
  injection Hg as ->. unfold parseToISOString.
  rewrite parse_millis by assumption. reflexivity.
Qed.

Lemma decode_seconds (name : string) (d : Date) :
  name <> "" -> noLineTerminator name = true ->
  valid d = true -> (year d <= 9999)%N ->
  decodeArchivedName (legacyArchivedNameOf name d)
  = Return (Some (name, toISOString (withMilliseconds d 0))).
Proof.
  intros Hne Hnl Hv Hy. unfold decodeArchivedName, legacyArchivedNameOf.
  rewrite matchArchivedName_archived by (assumption || apply isStamp_seconds).
  pose proof (isoTimestamp_seconds d) as Hg.
  destruct (matchStamp (layoutSeconds "-" "-" d)) as [g|]; [|discriminate Hg].
  injection Hg as ->. unfold parseToISOString.
  rewrite parse_seconds by assumption. reflexivity.
Qed.

End ArchiveNames.

(** *** The round trip *)

Section RoundTrip.
Import JS JSDate SkillsManagementManager.

Lemma legacyStamp_layout (d : Date) :
  (year d <= 9999)%N -> legacyStamp d = layoutSeconds "-" "-" d.
Proof.
  intros Hy. unfold legacyStamp. rewrite encodeTimestamp_layout by exact Hy.
  reflexivity.
Qed.

(** C5. Archive names round-trip. For a non-empty skill name without line
    terminators and a valid instant with a four-digit year: the directory
    name built by [doDeleteSkill] decodes to the skill name and the ISO form
    of that very instant; the legacy name, whose stamp has no milliseconds,
    decodes to the skill name and the instant at [.000]; the ISO form parses
    back to the instant; both stamps have the shape the decoder looks for;
    and removing the stamp from a name that ends in an underscore and a stamp,
    as [doRestoreSkill] does, leaves what stands before the underscore. *)
Theorem C5_archive_name_round_trip (skillName : string) (d : Date) :
  skillName <> "" -> noLineTerminator skillName = true ->
  valid d = true -> (year d <= 9999)%N ->
  decodeArchivedName (archivedNameOf skillName d)
  = Return (Some (skillName, toISOString d))
  /\ decodeArchivedName (skillName +:+ "_" +:+ legacyStamp d)
     = Return (Some (skillName, toISOString (withMilliseconds d 0)))
  /\ parse (toISOString d) = Some d
  /\ isStamp (encodeTimestamp d) = true /\ isStamp (legacyStamp d) = true
  /\ forall original stamp,
       isStamp stamp = true -> stripStamp (original +:+ "_" +:+ stamp) = original.
Proof.
  intros Hne Hnl Hv Hy. split; [|split; [|split; [|split; [|split]]]].
  - apply decode_millis; assumption.
  - rewrite legacyStamp_layout by exact Hy. apply decode_seconds; assumption.
  - rewrite toISOString_layout by exact Hy. apply parse_millis; assumption.
  - rewrite encodeTimestamp_layout by exact Hy. apply isStamp_millis.
  - rewrite legacyStamp_layout by exact Hy. apply isStamp_seconds.
  - intros original stamp Hs. apply stripStamp_archived, Hs.
Qed.

End RoundTrip.

(* ================================================================= *)
(** ** The lifecycle manager *)

Section Manager.
Import JS JSDate OperationQueue SkillsManagementManager.

#[local] Arguments String.append !s1 s2 : simpl nomatch.

Lemma fileExists_run (p : string) (w : World) :
  fileExists p w = (Return (existsAt w p), logged w (SysAccess p)).
Proof.
  unfold fileExists, tryCatch, mbind, M_bind, bind, FsPromises.access, existsAt.
  destruct (Fs.lookup (FsPromises.locate w p) (root w)); reflexivity.
Qed.


Lemma includes_append_r (a b sub : string) :
  includes b sub = true -> includes (a +:+ b) sub = true.
Proof.
  intros H. induction a as [|c a IH]; [exact H|].
  cbn. rewrite IH. apply orb_true_r.
Qed.

Lemma startsWith_append (a b : string) : startsWith (a +:+ b) a = true.
Proof.
  induction a as [|c a IH]; cbn; [destruct b; reflexivity|].
  rewrite Ascii.eqb_refl. exact IH.
Qed.




(** C10. The reader finds no skill of that name. Then [getSkillInfo]
    returns [null] and throws nothing, while [getSkillFileTree] throws
    [Skill not found: <name>]; neither touches the world. *)
Theorem C10_absent_null_or_not_found (m : Manager) (skillName : string) (w : World) :
  loadSkillContent (skillsManager m) w skillName = None ->
  getSkillInfo m skillName w = (Return None, w)
  /\ getSkillFileTree m skillName w
     = (Throw (newError ("Skill not found: " +:+ skillName)), w)
  /\ includes (message (newError ("Skill not found: " +:+ skillName)))
              "Skill not found" = true.
Proof.
  intros H. unfold getSkillInfo, getSkillFileTree, mbind, M_bind, bind, getWorld.
  rewrite H. repeat split.
Qed.

(** *** listSkills *)

Lemma sameDisk_refl w : sameDisk w w.
Proof. repeat split. Qed.

Lemma sameDisk_trans w1 w2 w3 : sameDisk w1 w2 -> sameDisk w2 w3 -> sameDisk w1 w3.
Proof. unfold sameDisk. intros (?&?&?&?) (?&?&?&?). repeat split; congruence. Qed.

Lemma sameDisk_logged w c : sameDisk w (logged w c).
Proof. repeat split. Qed.


Lemma safeGetFileStat_run (p : string) (w : World) :
  safeGetFileStat p w = (Return (statAt w p), logged w (SysStat p)).
Proof.
  unfold safeGetFileStat, tryCatch, mbind, M_bind, bind, FsPromises.stat,
    statAt, nodeAt.
  destruct (Fs.lookup (FsPromises.locate w p) (root w)); reflexivity.
Qed.





(** *** renameSkill *)

Lemma fsError_not_conflict (e : Fs.errno) (call path x : string) :
  FsPromises.fsError e call path <> newError ("Skill already exists: " +:+ x).
Proof.
  unfold FsPromises.fsError, newError. intros H. injection H as H.
  destruct e; discriminate H.
Qed.

Lemma doRenameSkill_run (m : Manager) (oldName newName : string) (w : World) :
  doRenameSkill m oldName newName w =
  match loadSkillContent (skillsManager m) w oldName with
  | None => (Throw (newError ("Skill not found: " +:+ oldName)), w)
  | Some _ =>
      if isValidSkillName newName then
        match loadSkillContent (skillsManager m) w newName with
        | Some _ => (Throw (newError ("Skill already exists: " +:+ newName)), w)
        | None => renameSteps m oldName newName w
        end
      else (Throw (newError ("Invalid skill name: " +:+ newName)), w)
  end.
Proof.
  unfold doRenameSkill, mbind, M_bind, bind, getWorld.
  destruct (loadSkillContent (skillsManager m) w oldName); [|reflexivity].
  destruct (isValidSkillName newName); [|reflexivity].
  destruct (loadSkillContent (skillsManager m) w newName); reflexivity.
Qed.

Lemma fsFails_bind {A B} (c : M A) (k : A -> M B) :
  fsFails c -> (forall a, fsFails (k a)) -> fsFails (c ≫= k).
Proof.
  intros Hc Hk w e. unfold mbind, M_bind, bind.
  destruct (c w) as [[a|e'] w'] eqn:E.
  - apply Hk.
  - cbn. intros H. injection H as <-. apply (Hc w). rewrite E. reflexivity.
Qed.

Lemma fsFails_update call name path run : fsFails (FsPromises.update call name path run).
Proof.
  intros w e. unfold FsPromises.update. destruct (run w); cbn; intros H.
  - injection H as <-. eauto.
  - discriminate H.
Qed.

Lemma fsFails_readFile p : fsFails (FsPromises.readFile p).
Proof.
  intros w e. unfold FsPromises.readFile.
  destruct (Fs.readFile _ _); cbn; intros H.
  - injection H as <-. eauto.
  - discriminate H.
Qed.

Lemma renameSteps_fsFails m oldName newName : fsFails (renameSteps m oldName newName).
Proof.
  unfold renameSteps. apply fsFails_bind; [apply fsFails_update|].
  intros _. apply fsFails_bind; [apply fsFails_readFile|].
  intros content. apply fsFails_update.
Qed.

(** C7. [doRenameSkill] throws [Skill already exists: <newName>] exactly
    when the old name is found, the new name is well formed and the reader
    finds a skill of the new name; it then leaves the world as it was. The
    list of archived skills is not consulted: only what the reader finds
    decides. *)
Theorem C7_rename_conflict (m : Manager) (oldName newName : string) (w : World) :
  let conflict := newError ("Skill already exists: " +:+ newName) in
  (fst (doRenameSkill m oldName newName w) = Throw conflict
   <-> is_Some (loadSkillContent (skillsManager m) w oldName)
       /\ isValidSkillName newName = true
       /\ is_Some (loadSkillContent (skillsManager m) w newName))
  /\ (fst (doRenameSkill m oldName newName w) = Throw conflict ->
      snd (doRenameSkill m oldName newName w) = w).
Proof.
  intros conflict. subst conflict. rewrite doRenameSkill_run.
  destruct (loadSkillContent (skillsManager m) w oldName) as [old|] eqn:Hold.
  2:{ cbn. split; [|reflexivity]. split.
      - intros H. injection H as H. discriminate H.
      - intros ([? H] & _). discriminate H. }
  destruct (isValidSkillName newName) eqn:Hvalid.
  2:{ cbn. split; [|reflexivity]. split.
      - intros H. injection H as H. discriminate H.
      - intros (_ & H & _). discriminate H. }
  destruct (loadSkillContent (skillsManager m) w newName) as [new|] eqn:Hnew.
  { cbn. split; [|reflexivity]. split; [eauto|reflexivity]. }
  assert (Hno : fst (renameSteps m oldName newName w)
                <> Throw (newError ("Skill already exists: " +:+ newName))).
  { intros H. destruct (renameSteps_fsFails m oldName newName w _ H)
      as (k & call & p & E).
    symmetry in E. exact (fsError_not_conflict _ _ _ _ E). }
  split.
  - split; [intros H; contradiction|].
    intros (_ & _ & [? H]). discriminate H.
  - intros H. contradiction.
Qed.

(** *** listArchivedSkills reads only *)

Lemma readOnly_ret {A} (a : A) : readOnly (mret a).
Proof. intros w. apply sameDisk_refl. Qed.

Lemma readOnly_throw {A} (e : Error) : readOnly (@throw A e).
Proof. intros w. apply sameDisk_refl. Qed.

Lemma readOnly_bind {A B} (c : M A) (k : A -> M B) :
  readOnly c -> (forall a, readOnly (k a)) -> readOnly (c ≫= k).
Proof.
  intros Hc Hk w. unfold mbind, M_bind, bind. specialize (Hc w).
  destruct (c w) as [[a|e] w']; cbn in *; [|exact Hc].
  eapply sameDisk_trans; [exact Hc|apply Hk].
Qed.

Lemma readOnly_tryCatch {A} (c : M A) (h : Error -> M A) :
  readOnly c -> (forall e, readOnly (h e)) -> readOnly (tryCatch c h).
Proof.
  intros Hc Hh w. unfold tryCatch. specialize (Hc w).
  destruct (c w) as [[a|e] w']; cbn in *; [exact Hc|].
  eapply sameDisk_trans; [exact Hc|apply Hh].
Qed.

Lemma readOnly_mapAwait {A B} (f : A -> M B) (xs : list A) :
  (forall x, readOnly (f x)) -> readOnly (mapAwait f xs).
Proof.
  intros Hf. induction xs as [|x xs IH]; [apply (readOnly_ret [])|].
  cbn [mapAwait]. apply (readOnly_bind (f x)); [apply Hf|].
  intros y. apply (readOnly_bind (mapAwait f xs)); [exact IH|].
  intros ys. apply (readOnly_ret (y :: ys)).
Qed.

Lemma readOnly_fileExists p : readOnly (fileExists p).
Proof. intros w. rewrite fileExists_run. apply sameDisk_logged. Qed.

Lemma readOnly_safeGetFileStat p : readOnly (safeGetFileStat p).
Proof. intros w. rewrite safeGetFileStat_run. apply sameDisk_logged. Qed.

Lemma readOnly_readdir p : readOnly (FsPromises.readdir p).
Proof.
  intros w. unfold FsPromises.readdir.
  destruct (Fs.lookup _ _) as [[]|]; apply sameDisk_logged.
Qed.

Lemma readOnly_archivedEntry dir entry : readOnly (archivedEntry dir entry).
Proof.
  unfold archivedEntry. destruct (negb (Fs.d_isDirectory entry)).
  { apply (readOnly_ret None). }
  apply readOnly_bind; [apply readOnly_fileExists|]. intros present.
  destruct (negb present); [apply (readOnly_ret None)|].
  destruct (decodeArchivedName (Fs.d_name entry)) as [[[original at_]|]|e].
  - apply readOnly_bind; [apply readOnly_safeGetFileStat|].
    intros st. apply readOnly_ret.
  - apply (readOnly_ret None).
  - apply readOnly_throw.
Qed.

(** [listArchivedSkills] returns a list, whatever the disk holds, and
    changes nothing. *)
Lemma listArchivedSkills_reads (m : Manager) (w : World) :
  exists archived w1,
    listArchivedSkills m w = (Return archived, w1) /\ sameDisk w w1.
Proof.
  assert (Hro : readOnly (listArchivedSkills m)).
  { unfold listArchivedSkills.
    apply readOnly_bind; [apply readOnly_fileExists|]. intros present.
    destruct (negb present); [apply (readOnly_ret [])|].
    apply readOnly_tryCatch; [|intros e; apply (readOnly_ret [])].
    apply readOnly_bind; [apply readOnly_readdir|]. intros entries.
    apply readOnly_bind; [apply readOnly_mapAwait, readOnly_archivedEntry|].
    intros found. apply readOnly_ret. }
  specialize (Hro w).
  assert (Hret : exists archived, fst (listArchivedSkills m w) = Return archived).
  { unfold listArchivedSkills, mbind at 1, M_bind at 1, bind at 1.
    rewrite fileExists_run. destruct (negb (existsAt w (archivedDir m))).
    - eexists. reflexivity.
    - unfold tryCatch.
      match goal with |- context [match ?c with _ => _ end] => destruct c as [[l|e] w'] end;
        eexists; reflexivity. }
  destruct Hret as [archived Hret].
  destruct (listArchivedSkills m w) as [r w1]. cbn in *. subst r. eauto.
Qed.

(** [listArchivedSkills] never throws: it returns a list, whatever is on
    disk, and changes nothing there. *)
Theorem listArchivedSkills_total (m : Manager) (w : World) :
  isThrow (fst (listArchivedSkills m w)) = false
  /\ sameDisk w (snd (listArchivedSkills m w)).
Proof.
  destruct (listArchivedSkills_reads m w) as (found & w1 & Hrun & Hsame).
  rewrite Hrun. split; [reflexivity|exact Hsame].
Qed.

(** *** createSkill *)

Lemma isNameChar_spec (c : ascii) : isNameChar c = true <-> nameCharacter c.
Proof.
  unfold isNameChar, nameCharacter, isLower, isUpper, isDigit. cbv zeta.
  rewrite !orb_true_iff, !andb_true_iff, !Nat.leb_le.
  split.
  - intros [[[[H|H]|H]|H]|H]; auto.
    + right. right. right. left. apply Ascii.eqb_eq, H.
    + right. right. right. right. apply Ascii.eqb_eq, H.
  - intros [H|[H|[H|[H|H]]]]; auto.
    + left. right. apply Ascii.eqb_eq, H.
    + right. apply Ascii.eqb_eq, H.
Qed.

Lemma allChars_spec (f : ascii -> bool) (P : ascii -> Prop) :
  (forall c, f c = true <-> P c) ->
  forall s, allChars f s = true <-> Forall P (list_ascii_of_string s).
Proof.
  intros Hf. induction s as [|c s IH]; cbn.
  - split; [constructor|reflexivity].
  - rewrite andb_true_iff, IH, Hf. split.
    + intros [? ?]. constructor; assumption.
    + intros H. inversion H. auto.
Qed.

Lemma isValidSkillName_spec (name : string) :
  isValidSkillName name = true <-> validName name.
Proof.
  unfold isValidSkillName, validName, testNamePattern.
  rewrite !andb_true_iff, Nat.ltb_lt, Nat.leb_le, negb_true_iff.
  rewrite (allChars_spec isNameChar nameCharacter isNameChar_spec).
  split.
  - intros [[[_ H] ?] ?]. repeat split; [exact H|lia|lia].
  - intros (H & ? & ?). repeat split; [|exact H|lia|lia].
    destruct name; [cbn in *; lia|reflexivity].
Qed.

Lemma startsWith_allChars (f : ascii -> bool) (p : string) : forall s,
  startsWith s p = true -> allChars f s = true -> allChars f p = true.
Proof.
  induction p as [|a p IH]; intros s H Hs; [reflexivity|].
  destruct s as [|b s]; [discriminate H|]. cbn in *.
  apply andb_true_iff in H as [Hab H]. apply andb_true_iff in Hs as [Hb Hs].
  apply Ascii.eqb_eq in Hab as ->. rewrite Hb. exact (IH s H Hs).
Qed.

Lemma includes_allChars (f : ascii -> bool) (sub : string) :
  allChars f sub = false ->
  forall s, allChars f s = true -> includes s sub = false.
Proof.
  intros Hsub. induction s as [|c s IH]; intros Hs.
  - cbn. rewrite orb_false_r.
    destruct (startsWith "" sub) eqn:E; [|reflexivity].
    rewrite (startsWith_allChars f sub "" E Hs) in Hsub. discriminate Hsub.
  - cbn [includes]. cbn in Hs. apply andb_true_iff in Hs as [Hc Hs'].
    rewrite (IH Hs'), orb_false_r.
    destruct (startsWith (String c s) sub) eqn:E; [|reflexivity].
    assert (Hall : allChars f (String c s) = true) by (cbn; rewrite Hc; exact Hs').
    rewrite (startsWith_allChars f sub _ E Hall) in Hsub. discriminate Hsub.
Qed.

(** The plain conflict does not read like the archived one. *)
Lemma plain_conflict_is_plain (name : string) :
  isValidSkillName name = true ->
  includes ("Skill already exists: " +:+ name)
           "restore or permanently delete it first" = false.
Proof.
  intros Hv. unfold isValidSkillName, testNamePattern in Hv.
  repeat (apply andb_true_iff in Hv as [Hv ?]).
  cbn -[includes].
  repeat (cbn [includes startsWith]; cbn [Ascii.eqb Bool.eqb andb orb]).
  apply (includes_allChars isNameChar); [reflexivity|assumption].
Qed.

Lemma doCreateSkill_run (m : Manager) (skillName : string)
    (options : CreateSkillOptions) (w : World) :
  doCreateSkill m skillName options w =
  if isValidSkillName skillName then
    match listArchivedSkills m w with
    | (Throw e, w1) => (Throw e, w1)
    | (Return archived, w1) =>
        match find (fun s => String.eqb (originalName s) skillName) archived with
        | Some _ => (Throw (archivedConflict skillName), w1)
        | None =>
            match loadSkillContent (skillsManager m) w1 skillName with
            | Some existing =>
                if inArchivedDirectory (sm_baseDir (metadata existing))
                then (Throw (archivedConflict skillName), w1)
                else (Throw (newError ("Skill already exists: " +:+ skillName)), w1)
            | None => createSteps m skillName options w1
            end
        end
    end
  else (Throw (newError ("Invalid skill name: " +:+ skillName)), w).
Proof.
  unfold doCreateSkill. destruct (isValidSkillName skillName); [|reflexivity].
  cbn [negb]. unfold mbind at 1, M_bind at 1, bind at 1.
  destruct (listArchivedSkills m w) as [[archived|e] w1]; [|reflexivity].
  destruct (find _ archived); [reflexivity|].
  unfold mbind at 1, M_bind at 1, bind at 1, getWorld.
  destruct (loadSkillContent (skillsManager m) w1 skillName) as [existing|];
    [|reflexivity].
  destruct (inArchivedDirectory _); reflexivity.
Qed.

(** C4. [doCreateSkill] accepts a name exactly when it is made of letters,
    digits, underscores and hyphens and is 1 to 50 characters long, and
    throws [Invalid skill name] otherwise. For an accepted name the archive
    is looked at first: an archived skill of that original name gives an
    error that asks to [restore or permanently delete it first]; with none,
    an online skill of that name gives the plain [already exists] error,
    which does not say so. *)
Theorem C4_create_checks (m : Manager) (skillName : string)
    (options : CreateSkillOptions) (w : World) :
  (isValidSkillName skillName = true <-> validName skillName)
  /\ (~ validName skillName ->
      doCreateSkill m skillName options w
      = (Throw (newError ("Invalid skill name: " +:+ skillName)), w))
  /\ (validName skillName ->
      exists archived w1,
        listArchivedSkills m w = (Return archived, w1) /\ sameDisk w w1
        /\ ((exists a, In a archived /\ originalName a = skillName) ->
            doCreateSkill m skillName options w
            = (Throw (archivedConflict skillName), w1)
            /\ includes (message (archivedConflict skillName))
                        "restore or permanently delete it first" = true)
        /\ ((forall a, In a archived -> originalName a <> skillName) ->
            forall existing,
              loadSkillContent (skillsManager m) w1 skillName = Some existing ->
              inArchivedDirectory (sm_baseDir (metadata existing)) = false ->
              let conflict := newError ("Skill already exists: " +:+ skillName) in
              doCreateSkill m skillName options w = (Throw conflict, w1)
              /\ includes (message conflict) "already exists" = true
              /\ includes (message conflict)
                          "restore or permanently delete it first" = false)).
Proof.
  split; [apply isValidSkillName_spec|]. split.
  - intros Hinvalid. rewrite doCreateSkill_run.
    destruct (isValidSkillName skillName) eqn:Hv; [|reflexivity].
    exfalso. apply Hinvalid, isValidSkillName_spec, Hv.
  - intros Hvalid. apply isValidSkillName_spec in Hvalid.
    destruct (listArchivedSkills_reads m w) as (archived & w1 & Hlist & Hsame).
    exists archived, w1. split; [exact Hlist|]. split; [exact Hsame|].
    rewrite doCreateSkill_run, Hvalid, Hlist. split.
    + intros (a & Hin & Hname).
      destruct (find (fun s => String.eqb (originalName s) skillName) archived)
        as [found|] eqn:Hfind.
      * split; [reflexivity|].
        unfold archivedConflict, newError, message.
        apply includes_append_r, includes_append_r. reflexivity.
      * exfalso. pose proof (find_none _ _ Hfind a Hin) as Hno. cbn in Hno.
        rewrite Hname, String.eqb_refl in Hno. discriminate Hno.
    + intros Hnone existing Hload Honline conflict.
      destruct (find (fun s => String.eqb (originalName s) skillName) archived)
        as [found|] eqn:Hfind.
      * exfalso. apply find_some in Hfind as [Hin Heq].
        apply String.eqb_eq in Heq. exact (Hnone found Hin Heq).
      * rewrite Hload, Honline.
        split; [reflexivity|]. split; [reflexivity|].
        apply plain_conflict_is_plain, Hvalid.
Qed.

(** *** restoreSkill *)


End Manager.

Section Counterexamples.
Import JS JSDate OperationQueue SkillsManagementManager Scenario.

(** Renaming onto a name that only an archived skill bears: [demo] was
    archived, [other] is online. No online [demo] exists, and yet the rename
    is refused, because the reader scans the archive directory too. *)
Lemma C7_counterexample :
  let m := standard in
  let w := withOther m in
  (exists online,
     fst (listSkills m w) = Return online
     /\ List.map (fun i => sm_name (si_skill i)) online = ["other"])
  /\ existsAt w "/skills/demo" = false
  /\ (exists entries,
        fst (listArchivedSkills m w) = Return entries
        /\ List.map originalName entries = ["demo"])
  /\ doRenameSkill m "other" "demo" w
     = (Throw (newError "Skill already exists: demo"), w).
Proof.
  cbv zeta. split; [|split; [|split]].
  - eexists. split; vm_compute; reflexivity.
  - vm_compute. reflexivity.
  - eexists. split; vm_compute; reflexivity.
  - vm_compute. reflexivity.
Qed.



(** C2. [deleteFile] does not check the boundary. The path [../secret]
    leaves the skill directory and [readFile] refuses it; [deleteFile] puts
    it between quotes in an [rm -f] command, hands the command to the shell
    of the sandbox, and the file next to the skill directory is gone. *)
Theorem C2_deleteFile_escapes :
  let fm := SandboxFileManager.mkFileManager Sandbox.LocalSandboxFactory in
  let w := secretDisk in
  let command := "rm -f " +:+ str DQUOTE +:+ "../secret" +:+ str DQUOTE in
  Sandbox.escapes "../secret" = true
  /\ fst (SandboxFileManager.readFile fm "/skills/demo" "../secret" w)
     = Throw (Sandbox.boundaryError "../secret")
  /\ nodeAt w "/skills/secret" = Some (Fs.File "s3cr3t" t0 t0)
  /\ fst (SandboxFileManager.deleteFile fm "/skills/demo" "../secret" w) = Return tt
  /\ nodeAt (snd (SandboxFileManager.deleteFile fm "/skills/demo" "../secret" w))
            "/skills/secret" = None
  /\ trace (snd (SandboxFileManager.deleteFile fm "/skills/demo" "../secret" w))
     = [SysExec "/skills/demo" command].
Proof. cbv zeta. repeat split; vm_compute; reflexivity. Qed.

End Counterexamples.

(* ================================================================= *)
(** ** The statements at concrete inputs *)

Section Witnesses.
Import JS JSDate OperationQueue SkillsManagementManager Scenario QueueScenario.

(** The name of [demo], archived at [t0], and its legacy form. *)
Lemma C5_witness :
  decodeArchivedName (archivedNameOf "demo" t0)
  = Return (Some ("demo", "2026-01-15T05:05:01.350Z"))
  /\ decodeArchivedName "demo_2026-01-15T05-05-01Z"
     = Return (Some ("demo", "2026-01-15T05:05:01.000Z"))
  /\ stripStamp "demo_2026-01-15T05-05-01-350Z" = "demo".
Proof.
  destruct (C5_archive_name_round_trip "demo" t0) as (H1 & H2 & _ & _ & _ & H3);
    [discriminate|reflexivity|reflexivity|vm_compute; discriminate|].
  split; [exact H1|]. split; [exact H2|].
  apply (H3 "demo" "2026-01-15T05-05-01-350Z"). reflexivity.
Defined.

(** No skill is called [ghost] on an empty disk. *)
Lemma C10_witness :
  getSkillInfo standard "ghost" emptyDisk = (Return None, emptyDisk)
  /\ getSkillFileTree standard "ghost" emptyDisk
     = (Throw (newError "Skill not found: ghost"), emptyDisk).
Proof.
  destruct (C10_absent_null_or_not_found standard "ghost" emptyDisk)
    as (H1 & H2 & _); [vm_compute; reflexivity|].
  split; [exact H1|exact H2].
Defined.



(** Creating [demo] again after it was archived, and a name with a space. *)
Lemma C4_witness :
  fst (doCreateSkill standard "demo" demoOptions (archived standard))
  = Throw (archivedConflict "demo")
  /\ fst (doCreateSkill standard "bad name" demoOptions emptyDisk)
     = Throw (newError "Invalid skill name: bad name").
Proof.
  destruct (C4_create_checks standard "demo" demoOptions (archived standard))
    as (Hv & _ & H).
  destruct H as (entries & w1 & Hlist & _ & Harchived & _).
  { apply Hv. reflexivity. }
  destruct Harchived as [Hrun _].
  { assert (Hfst : fst (listArchivedSkills standard (archived standard))
                   = Return entries) by (rewrite Hlist; reflexivity).
    vm_compute in Hfst. injection Hfst as <-.
    eexists. split; [left; reflexivity|reflexivity]. }
  split; [rewrite Hrun; reflexivity|].
  destruct (C4_create_checks standard "bad name" demoOptions emptyDisk)
    as (Hv' & Hinvalid & _).
  rewrite Hinvalid; [reflexivity|].
  intros Hbad. apply Hv' in Hbad. discriminate Hbad.
Defined.


(** Two tasks enqueued, the first one settled: both started, in order. *)
Lemma C1_witness :
  let m := run (initial emptyDisk objects) [Enqueue 0; Enqueue 1; Settle 0] in
  length (running m) <= 1
  /\ enqueued m = startedLog m ++ queue m
  /\ startedLog m = [0; 1].
Proof.
  destruct (C1_serial_fifo emptyDisk objects [Enqueue 0; Enqueue 1; Settle 0])
    as (H1 & _ & H3).
  split; [exact H1|]. split; [apply H3; reflexivity|].
  vm_compute. reflexivity.
Defined.

(** The restore of a name that is not archived fails while a create waits:
    the failure is recorded, the create starts, the caller gets the error. *)
Lemma C3_witness :
  let m' := step busy (Settle 0) in
  (status <$> heap m' !! 0) = Some FAILED
  /\ (error <$> heap m' !! 0) = Some (Some notFound)
  /\ running m' = [1]
  /\ fst (resume (restoreSkill standard "nope_2026-01-15T05-05-01-350Z" "uuid-1" t0)
            (fun _ => failed t0 notFound (started t0 failing)) emptyDisk)
     = Throw notFound.
Proof.
  destruct (C3_failure_recorded_and_rethrown busy 0 (started t0 failing) notFound
              (logged emptyDisk
                 (SysAccess "/skills/.archived/nope_2026-01-15T05-05-01-350Z")))
    as (Hheap & _ & _ & _ & _ & Hnext & Hthrow).
  - reflexivity.
  - reflexivity.
  - reflexivity.
  - apply (bool_decide_unpack _). vm_compute. exact I.
  - cbv zeta.
    split; [exact (f_equal (fmap status) Hheap)|].
    split; [exact (f_equal (fmap error) Hheap)|].
    split; [exact (proj1 (proj2 Hnext))|].
    exact (f_equal fst
             (proj2 (proj2 (proj2 (proj2
                (Hthrow (fun _ => failed t0 notFound (started t0 failing)) 0 emptyDisk
                   (Nat.le_0_l 300) (fun j Hj => match Nat.nlt_0_r j Hj with end) Hheap
                   standard "nope_2026-01-15T05-05-01-350Z" "" "" "" "uuid-1"
                   demoOptions None t0)))))).
Defined.

End Witnesses.
